(** * cfd_playground: chamber geometry script, preview tessellation and
      Poiseuille comparison

    Shallow embedding of [geometry/build_and_mesh.py] and of the comparison
    step of [test_cube/test_cube.py].

    The Python code computes with IEEE binary64 numbers.  The program is
    written once over an arithmetic interface and read in two ways:
    - [b64]: binary64 itself, through the Standard Library's [SpecFloat]
      (round to nearest even, signed zeros, infinities, one NaN); executable;
    - [Rarith]: exact real arithmetic, for the algebraic and geometric
      statements that do not speak about rounding. *)

From Stdlib Require Import ZArith List String Bool Lia.
From Stdlib Require Import QArith Qpower.
From Stdlib Require Import Reals Lra Psatz.
From Stdlib Require Import SpecFloat.
Close Scope Q_scope.
Import ListNotations.

Set Implicit Arguments.

(** ** Arithmetic interface *)

Declare Scope arith_scope.
Delimit Scope arith_scope with A.

(** The operations the two scripts apply to numbers.  [lit n d] is the
    decimal literal [n/d] as the language reads it ([0.06] is [lit 6 100],
    the integer [5] is [lit 5 1]). *)
Class Arith (F : Type) : Type := {
  lit : Z -> positive -> F;
  add : F -> F -> F;
  sub : F -> F -> F;
  mul : F -> F -> F;
  div : F -> F -> F;
  neg : F -> F;
  fabs : F -> F;
  fsqrt : F -> F;
  fmax : F -> F -> F;
  ltb : F -> F -> bool
}.

(** [np.cos], [np.sin] and [np.pi]. *)
Class Trig (F : Type) : Type := {
  fcos : F -> F;
  fsin : F -> F;
  fpi : F
}.

Infix "+" := add : arith_scope.
Infix "-" := sub : arith_scope.
Infix "*" := mul : arith_scope.
Infix "/" := div : arith_scope.
Infix "<?" := ltb : arith_scope.
Notation "- x" := (neg x) : arith_scope.

(** *** Binary64 *)

Definition b64_of_Z (z : Z) : spec_float := binary_normalize 53 1024 z 0 false.

(** [np.max] lets a NaN win; otherwise the larger operand. *)
Definition b64_max (a b : spec_float) : spec_float :=
  match a, b with
  | S754_nan, _ | _, S754_nan => S754_nan
  | _, _ => if SFltb a b then b else a
  end.

#[export] Instance b64 : Arith spec_float := {|
  lit n d := SFdiv 53 1024 (b64_of_Z n) (b64_of_Z (Zpos d));
  add := SFadd 53 1024;
  sub := SFsub 53 1024;
  mul := SFmul 53 1024;
  div := SFdiv 53 1024;
  neg := SFopp;
  fabs := SFabs;
  fsqrt := SFsqrt 53 1024;
  fmax := b64_max;
  ltb := SFltb
|}.

(** [math.pi] is the double [884279719003555 * 2^-48]. *)
Definition b64_pi : spec_float := binary_normalize 53 1024 884279719003555 (-48) false.

(** The C library's cosine and sine are not specified bit for bit; the
    binary64 reading takes them as arguments. *)
Definition b64_trig (cos64 sin64 : spec_float -> spec_float) : Trig spec_float :=
  {| fcos := cos64; fsin := sin64; fpi := b64_pi |}.

Definition is_nan (x : spec_float) : bool :=
  match x with S754_nan => true | _ => false end.

Definition is_finite (x : spec_float) : bool :=
  match x with S754_zero _ | S754_finite _ _ _ => true | _ => false end.

(** *** Exact reals *)

Definition Rltb (a b : R) : bool := if Rlt_dec a b then true else false.

#[export] Instance Rarith : Arith R := {|
  lit n d := (IZR n / IZR (Zpos d))%R;
  add := Rplus;
  sub := Rminus;
  mul := Rmult;
  div := Rdiv;
  neg := Ropp;
  fabs := Rabs;
  fsqrt := sqrt;
  fmax := Rmax;
  ltb := Rltb
|}.

#[export] Instance Rtrig : Trig R := {| fcos := cos; fsin := sin; fpi := PI |}.

(** ** Python outcomes *)

Inductive exn : Type :=
| ValueError
| AssertionError (msg : string).

Inductive py_result (A : Type) : Type :=
| Returned (a : A)
| Raised (e : exn).
Arguments Returned {A} a.
Arguments Raised {A} e.

(** ** geometry/build_and_mesh.py *)

Definition handle := nat.

Section Geometry.
Context {F : Type} {AF : Arith F}.
Local Open Scope arith_scope.

(** The user-tunable numbers (mm): the [params] dictionary. *)
Record ChamberParameters : Type := {
  lx : F; ly : F; lz : F;
  tube_id : F; tube_len : F;
  mesh_x : F; mesh_thk : F;
  out_id : F; out_depth : F
}.

Definition params : ChamberParameters := {|
  lx := lit 30 1; ly := lit 20 1; lz := lit 20 1;
  tube_id := lit 3175 1000; tube_len := lit 18 1;
  mesh_x := lit 10 1; mesh_thk := lit 11 100;
  out_id := lit 3175 1000; out_depth := lit 2 1
|}.

(** *** The script *)

(** An argument of the script is a number that Python formatted, or a
    difference or a negation that the template leaves for the engine to
    evaluate ([{mesh_x}-{mesh_thk/2}], [-{out_depth}]). *)
Inductive expr : Type :=
| Num (v : F)
| Minus (a b : expr)
| Neg (a : expr).

Fixpoint eval (e : expr) : F :=
  match e with
  | Num v => v
  | Minus a b => eval a - eval b
  | Neg a => - eval a
  end.

(** [BoundingBox{xmin,ymin,zmin, xmax,ymax,zmax}]. *)
Record bbox : Type := {
  xmin : expr; ymin : expr; zmin : expr;
  xmax : expr; ymax : expr; zmax : expr
}.

Inductive selector : Type :=
| InBoundingBox (b : bbox)
| AllSurfaces.

(** One constructor per statement form of [geo_template].  A boolean
    statement carries its object and tool handles, each group with its
    [Delete] flag. *)
Inductive instr : Type :=
| SetFactory (kernel : string)
| Box (h : handle) (x y z dx dy dz : expr)
| Cylinder (h : handle) (x y z ax ay az r : expr)
| BooleanDifference (obj : list handle) (obj_delete : bool)
                    (tool : list handle) (tool_delete : bool)
| BooleanFuse (obj : list handle) (obj_delete : bool)
              (tool : list handle) (tool_delete : bool)
| PhysicalVolume (name : string) (vols : list handle)
| PhysicalSurface (name : string) (sel : selector)
| CharacteristicLength (vols : list handle) (len : expr)
| SetOption (name : string) (v : expr).

(** A number written in the template itself. *)
Definition dlit (n : Z) (k : positive) : expr := Num (lit n k).

Definition geo_template (p : ChamberParameters) : list instr :=
  [ SetFactory "OpenCASCADE";
    Box 1 (dlit 0 1) (dlit 0 1) (dlit 0 1) (Num (lx p)) (Num (ly p)) (Num (lz p));
    Cylinder 2 (dlit 4 1) (dlit 10 1) (dlit 2 1)
               (dlit 0 1) (dlit 0 1) (Num (tube_len p))
               (Num (tube_id p / lit 2 1));
    Cylinder 3 (dlit 26 1) (dlit 10 1) (Num (lz p))
               (dlit 0 1) (dlit 0 1) (Neg (Num (out_depth p)))
               (Num (out_id p / lit 2 1));
    Box 4 (Minus (Num (mesh_x p)) (Num (mesh_thk p / lit 2 1))) (dlit 0 1) (dlit 0 1)
          (Num (mesh_thk p)) (Num (ly p)) (Num (lz p));
    BooleanDifference [1] true [2; 3] true;
    BooleanFuse [1] true [4] true;
    PhysicalVolume "fluid" [1];
    PhysicalSurface "inlet"
      (InBoundingBox {| xmin := dlit 39 10; ymin := dlit 99 10; zmin := dlit 20 1;
                        xmax := dlit 41 10; ymax := dlit 101 10; zmax := dlit 201 10 |});
    PhysicalSurface "outlet"
      (InBoundingBox {| xmin := dlit 259 10; ymin := dlit 99 10; zmin := dlit 179 10;
                        xmax := dlit 261 10; ymax := dlit 101 10; zmax := dlit 201 10 |});
    PhysicalSurface "mesh"
      (InBoundingBox {| xmin := Num (mesh_x p - lit 6 100);
                        ymin := dlit (-1) 10; zmin := dlit (-1) 10;
                        xmax := Num (mesh_x p + lit 6 100);
                        ymax := Num (ly p + lit 1 10);
                        zmax := Num (lz p + lit 1 10) |});
    PhysicalSurface "walls" AllSurfaces;
    CharacteristicLength [1] (dlit 2 1);
    SetOption "Mesh.CharacteristicLengthExtend" (dlit 0 1) ].

(** *** Reading the emitted sequence *)

Inductive csg_kind : Type := KBox | KCylinder | KDifference | KUnion.

Definition csg_kind_of (i : instr) : option csg_kind :=
  match i with
  | Box _ _ _ _ _ _ _ => Some KBox
  | Cylinder _ _ _ _ _ _ _ _ => Some KCylinder
  | BooleanDifference _ _ _ _ => Some KDifference
  | BooleanFuse _ _ _ _ => Some KUnion
  | _ => None
  end.

(** The primitive creations and boolean operations, in emission order. *)
Fixpoint csg_kinds (prog : list instr) : list csg_kind :=
  match prog with
  | [] => []
  | i :: rest =>
      match csg_kind_of i with
      | Some k => k :: csg_kinds rest
      | None => csg_kinds rest
      end
  end.

(** Handles created by primitives, in creation order. *)
Fixpoint created (prog : list instr) : list handle :=
  match prog with
  | [] => []
  | Box h _ _ _ _ _ _ :: rest => h :: created rest
  | Cylinder h _ _ _ _ _ _ _ :: rest => h :: created rest
  | _ :: rest => created rest
  end.

(** Operands a statement deletes. *)
Definition consumed (i : instr) : list handle :=
  match i with
  | BooleanDifference o od t td
  | BooleanFuse o od t td => (if od then o else []) ++ (if td then t else [])
  | _ => []
  end.

(** Handles a statement names. *)
Definition referenced (i : instr) : list handle :=
  match i with
  | BooleanDifference o _ t _ | BooleanFuse o _ t _ => o ++ t
  | PhysicalVolume _ vs => vs
  | CharacteristicLength vs _ => vs
  | _ => []
  end.

Definition mem (h : handle) (l : list handle) : bool := existsb (Nat.eqb h) l.

(** The references to handles that an earlier statement has consumed,
    in program order; [dead] holds the handles consumed so far. *)
Fixpoint stale_references (dead : list handle) (prog : list instr) : list handle :=
  match prog with
  | [] => []
  | i :: rest =>
      filter (fun h => mem h dead) (referenced i)
      ++ stale_references (consumed i ++ dead) rest
  end.

(** The liveness check of the design notes, following the spec's words:
    no handle is referenced after being consumed. *)
Definition liveness_check (prog : list instr) : bool :=
  match stale_references [] prog with [] => true | _ => false end.

Definition deletes_operands (i : instr) : bool :=
  match i with
  | BooleanDifference _ od _ td | BooleanFuse _ od _ td => od && td
  | _ => true
  end.

(** The same scan when the result of a boolean operation takes over the
    tag of its first object operand, which is what the later statements of
    the script ([Volume{1}]) rely on. *)
Definition result_tag (i : instr) : list handle :=
  match i with
  | BooleanDifference (h :: _) _ _ _ | BooleanFuse (h :: _) _ _ _ => [h]
  | _ => []
  end.

Fixpoint live_references (live : list handle) (prog : list instr) : bool :=
  match prog with
  | [] => true
  | i :: rest =>
      forallb (fun h => mem h live) (referenced i)
      && live_references
           (match i with
            | Box h _ _ _ _ _ _ | Cylinder h _ _ _ _ _ _ _ => h :: live
            | _ => result_tag i
                   ++ filter (fun h => negb (mem h (consumed i))) live
            end) rest
  end.

(** *** Boundary classification *)

Record BoundaryRegion : Type := {
  region_name : string;
  region_selector : selector
}.

(** The [Physical Surface] statements, in declaration order. *)
Fixpoint boundary_regions (prog : list instr) : list BoundaryRegion :=
  match prog with
  | [] => []
  | PhysicalSurface n s :: rest =>
      {| region_name := n; region_selector := s |} :: boundary_regions rest
  | _ :: rest => boundary_regions rest
  end.

Definition classify (p : ChamberParameters) : list BoundaryRegion :=
  boundary_regions (geo_template p).

(** A bounding box with its six numbers evaluated:
    [((xmin, ymin, zmin), (xmax, ymax, zmax))]. *)
Definition box_values (b : bbox) : (F * F * F) * (F * F * F) :=
  ((eval (xmin b), eval (ymin b), eval (zmin b)),
   (eval (xmax b), eval (ymax b), eval (zmax b))).

Fixpoint region_box (name : string) (rs : list BoundaryRegion) : option bbox :=
  match rs with
  | [] => None
  | r :: rest =>
      if String.eqb (region_name r) name then
        match region_selector r with
        | InBoundingBox b => Some b
        | AllSurfaces => None
        end
      else region_box name rest
  end.

(** The two x-planes bounding the box created under handle [h]: its
    origin and its origin plus its x-extent. *)
Fixpoint box_x_planes (h : handle) (prog : list instr) : option (F * F) :=
  match prog with
  | [] => None
  | Box h' x _ _ dx _ _ :: rest =>
      if Nat.eqb h' h then Some (eval x, eval x + eval dx)
      else box_x_planes h rest
  | _ :: rest => box_x_planes h rest
  end.

End Geometry.

(** ** Preview tessellation (build_and_mesh.py, lines 56-100) *)

Section Tessellation.
Context {F : Type} {AF : Arith F} {TF : Trig F}.
Local Open Scope arith_scope.

Definition vec3 : Type := (F * F * F)%type.

Definition vx (v : vec3) : F := fst (fst v).
Definition vy (v : vec3) : F := snd (fst v).
Definition vz (v : vec3) : F := snd v.

Definition vadd (a b : vec3) : vec3 := (vx a + vx b, vy a + vy b, vz a + vz b).
Definition vscale (k : F) (a : vec3) : vec3 := (k * vx a, k * vy a, k * vz a).
Definition vdiv (a : vec3) (k : F) : vec3 := (vx a / k, vy a / k, vz a / k).

Definition dot (a b : vec3) : F := (vx a * vx b + vy a * vy b) + vz a * vz b.

(** [np.linalg.norm] of a vector: the square root of its dot product
    with itself.  numpy leaves the dot product to its BLAS kernel, which
    may fuse a product with the sum that follows it; the binary64 reading
    fixes one order, [dot] above, with every product rounded and the sums
    taken left to right, and can differ from a run in the last bit.  The
    exact reading does not depend on the order. *)
Definition norm (a : vec3) : F := fsqrt (dot a a).

(** [np.cross] of two 3-vectors. *)
Definition cross (a b : vec3) : vec3 :=
  (vy a * vz b - vz a * vy b,
   vz a * vx b - vx a * vz b,
   vx a * vy b - vy a * vx b).

Definition world_up : vec3 := (lit 0 1, lit 0 1, lit 1 1).
Definition world_y : vec3 := (lit 0 1, lit 1 1, lit 0 1).

(** The named threshold of the degeneracy guard. *)
Definition parallel_threshold : F := lit 99 100.

(** Line 60: the reference vector crossed with the unit axis. *)
Definition reference (z : vec3) : vec3 :=
  if fabs (vz z) <? parallel_threshold then world_up else world_y.

(** Lines 58-62: the unit axis [z], the vector [x] before and after its
    normalisation, and [y]. *)
Definition unit_axis (vec : vec3) : vec3 := vdiv vec (norm vec).
Definition raw_x (vec : vec3) : vec3 :=
  let z := unit_axis vec in cross (reference z) z.
Definition frame (vec : vec3) : vec3 * vec3 * vec3 :=
  let z := unit_axis vec in
  let x := vdiv (raw_x vec) (norm (raw_x vec)) in
  let y := cross z x in
  (x, y, z).

(** [np.linspace(start, stop, n, endpoint=False)]: [n] samples
    [i * step + start] with [step = (stop - start) / n]. *)
Definition linspace (start stop : F) (n : nat) : list F :=
  let step := (stop - start) / lit (Z.of_nat n) 1 in
  map (fun i => lit (Z.of_nat i) 1 * step + start) (seq 0 n).

Definition zero3 : vec3 := (lit 0 1, lit 0 1, lit 0 1).

(** Lines 63-66: [ring] is the array [c0], [c1] its translate by [vec].
    With [n = 0] the ring is an empty array of shape [(0,)], which does not
    broadcast against [vec]: numpy raises a [ValueError]. *)
Definition ring (base vec : vec3) (r : F) (n : nat) : list vec3 :=
  let '(x, y, _) := frame vec in
  map (fun th => vadd base (vscale r (vadd (vscale (fcos th) x) (vscale (fsin th) y))))
      (linspace (lit 0 1) (lit 2 1 * fpi) n).

Definition cyl_faces (base vec : vec3) (r : F) (n : nat) : py_result (list (list vec3)) :=
  let c0 := ring base vec r n in
  match n with
  | O => Raised ValueError
  | S _ =>
      let c1 := map (fun c => vadd c vec) c0 in
      Returned
        (map (fun i =>
                [ nth i c0 zero3; nth (Nat.modulo (i + 1) n) c0 zero3;
                  nth (Nat.modulo (i + 1) n) c1 zero3; nth i c1 zero3 ])
             (seq 0 n))
  end.

(** Lines 95-99: the eight corners of the plate and the two faces drawn. *)
Definition plate (mx th ly lz : F) : list vec3 :=
  let o := lit 0 1 in
  let two := lit 2 1 in
  [ (mx - th / two, o, o); (mx + th / two, o, o);
    (mx + th / two, ly, o); (mx - th / two, ly, o);
    (mx - th / two, o, lz); (mx + th / two, o, lz);
    (mx + th / two, ly, lz); (mx - th / two, ly, lz) ].

Definition plate_faces (mx th ly lz : F) : list (list vec3) :=
  let pl := plate mx th ly lz in
  [ [ nth 0 pl zero3; nth 1 pl zero3; nth 2 pl zero3; nth 3 pl zero3 ];
    [ nth 4 pl zero3; nth 5 pl zero3; nth 6 pl zero3; nth 7 pl zero3 ] ].

Definition preview_plate (p : ChamberParameters) : list (list vec3) :=
  plate_faces (mesh_x p) (mesh_thk p) (ly p) (lz p).

End Tessellation.

(** ** test_cube/test_cube.py, lines 240-249 *)

Section Comparison.
Context {F : Type} {AF : Arith F}.
Local Open Scope arith_scope.

(** Each sampled row gives the abscissa [data[:,0]] and the velocity
    [data[:,2]].  [np.loadtxt] returns a two-dimensional array for a file
    of two or more rows only: with fewer rows the slices raise an
    [IndexError], and the steps below are not reached. *)
Definition samples : Type := list (F * F).

Definition sq (a : F) : F := a * a.

Definition u_analytic (u_max : F) (x : list F) : list F :=
  map (fun xi => u_max * (lit 1 1 - sq (xi / lit 5 1))) x.

(** [np.linalg.norm] of a 1-D array: the square root of the dot product
    of the array with itself.  As for [norm] above, the binary64 reading
    rounds every square and sums from left to right, where numpy's kernel
    may fuse and reorder; the two can differ in the last bit. *)
Definition norm_l2 (v : list F) : F :=
  fsqrt (fold_left add (map sq v) (lit 0 1)).

Definition array_sub (a b : list F) : list F :=
  map (fun ab => fst ab - snd ab) (combine a b).

Definition relative_error (u_max : F) (x u_num : list F) : F :=
  let ua := u_analytic u_max x in
  norm_l2 (array_sub u_num ua) / norm_l2 ua.

Definition threshold : F := lit 3 100.

Inductive event : Type :=
| PrintError (err : F)
| PrintPassed.

(** The assertion of line 248 and the print after it. *)
Definition check_error (err : F) : list event * py_result unit :=
  if err <? threshold
  then ([PrintError err; PrintPassed], Returned tt)
  else ([PrintError err], Raised (AssertionError "Velocity deviates >3% from Poiseuille")).

(** Step 3 of [main], from the table [np.loadtxt] returned: the steps
    before it run the external tools.  [u_num.max()] raises a
    [ValueError] on an empty array. *)
Definition main (data : samples) : list event * py_result unit :=
  let x := map fst data in
  let u_num := map snd data in
  match u_num with
  | [] => ([], Raised ValueError)
  | u0 :: us =>
      let u_max := fold_left fmax us u0 in
      check_error (relative_error u_max x u_num)
  end.

End Comparison.

(** ** The rest of the preview (build_and_mesh.py, lines 72-92) *)

Section Preview.
Context {F : Type} {AF : Arith F} {TF : Trig F}.
Local Open Scope arith_scope.

(** The three coordinate lists handed to [ax.plot], as the polyline of
    points they describe. *)
Definition plot (xs ys zs : list F) : list vec3 :=
  map (fun q => (fst q, fst (snd q), snd (snd q))) (combine xs (combine ys zs)).

(** Lines 73-83: the chamber wireframe, one polyline per [ax.plot] call, in
    call order. *)
Definition wireframe (p : ChamberParameters) : list (list vec3) :=
  let o := lit 0 1 in
  flat_map (fun xs : F * F =>
    flat_map (fun ys : F * F =>
      [ plot [fst xs; snd xs; snd xs; fst xs; fst xs]
             [fst ys; fst ys; snd ys; snd ys; fst ys]
             [o; o; o; o; o];
        plot [fst xs; snd xs; snd xs; fst xs; fst xs]
             [fst ys; fst ys; snd ys; snd ys; fst ys]
             (repeat (lz p) 5) ])
      [(o, ly p)])
    [(o, lx p)]
  ++ flat_map (fun x =>
       map (fun y => plot [x; x] [y; y] [o; lz p]) [o; ly p])
     [o; lx p].

(** Lines 86 and 90-91: the two tubes, with the default 48 segments. *)
Definition inlet_tube (p : ChamberParameters) : py_result (list (list vec3)) :=
  cyl_faces (lit 4 1, lit 10 1, lit 2 1)
            (lit 0 1, lit 0 1, tube_len p)
            (tube_id p / lit 2 1) 48.

Definition outlet_tube (p : ChamberParameters) : py_result (list (list vec3)) :=
  cyl_faces (lit 26 1, lit 10 1, lz p)
            (lit 0 1, lit 0 1, - out_depth p)
            (out_id p / lit 2 1) 48.

End Preview.

(** ** The case directory (test_cube.py, lines 25-223) *)

(** The texts of the module, as written between its triple quotes. *)

Definition foam_header_head : string :=
"
FoamFile
{
    version     2.0;
    format      ascii;
    class       dictionary;
    object      ".

Definition foam_header_tail : string :=
";
}
// * * * * * * * * * * * * * * * * * * * * * //
".

Definition blockMeshDict_text : string :=
"
convertToMeters 0.001;
vertices (
    (0 0 0)
    (5 0 0)
    (5 5 0)
    (0 5 0)
    (0 0 5)
    (5 0 5)
    (5 5 5)
    (0 5 5)
);
blocks (
    hex (0 1 2 3 4 5 6 7) (20 20 20) simpleGrading (1 1 1)
);
boundary (
    inlet  { type patch; faces ((0 3 7 4)); }
    outlet { type patch; faces ((1 2 6 5)); }
    walls  { type wall;  faces (
        (0 1 5 4)
        (3 2 6 7)
        (0 1 2 3)
        (4 5 6 7)
    ); }
);
".

Definition fvSchemes_text : string :=
"
ddtSchemes
{
    default         steadyState;
}
gradSchemes
{
    default         Gauss linear;
}
divSchemes
{
    default         none;
    div(phi,U)      Gauss linear;
}
laplacianSchemes
{
    default         Gauss linear corrected;
}
interpolationSchemes
{
    default         linear;
}
snGradSchemes
{
    default         corrected;
}
".

Definition fvSolution_text : string :=
"
solvers
{
    p
    {
        solver          PCG;
        tolerance       1e-06;
        relTol          0;
    }
    U
    {
        solver          smoothSolver;
        smoother        symGaussSeidel;
        tolerance       1e-06;
        relTol          0;
    }
}

SIMPLE
{
    nNonOrthogonalCorrectors 0;
}

relaxationFactors
{
    fields
    {
        p               0.3;
    }
    equations
    {
        U               0.7;
    }
}
".

Definition controlDict_text : string :=
"
application     simpleFoam;
startFrom       startTime;
startTime       0;
endTime         200;
deltaT          1;
writeControl    timeStep;
writeInterval   200;
purgeWrite      0;
".

Definition transportProperties_text : string :=
"
transportModel  Newtonian;
nu              [0 2 -1 0 0 0 0] 1e-6;
".

Definition U_field_text : string :=
"
dimensions      [0 1 -1 0 0 0 0];
internalField   uniform (0.001 0 0);
boundaryField
{
    inlet  { type fixedValue; value uniform (0.001 0 0); }
    outlet { type zeroGradient; }
    walls  { type noSlip; }
}
".

Definition p_field_text : string :=
"
dimensions      [0 2 -2 0 0 0 0];
internalField   uniform 0;
boundaryField
{
    inlet  { type zeroGradient; }
    outlet { type fixedValue; value uniform 0; }
    walls  { type zeroGradient; }
}
".

Definition sampleDict_text : string :=
"
FoamFile
{
    version     2.0;
    format      ascii;
    class       dictionary;
    object      sampleDict;
}

interpolationScheme cellPoint;
sets ( centerLine uniform (0 2.5 2.5) (5 2.5 2.5) 100 );
fields ( U );
".

(** What lies in a directory: names with a file or a directory each. *)
#[warnings="-register-all"]
Inductive node : Type :=
| File (content : string)
| Dir (entries : list (string * node)).

Definition entries : Type := list (string * node).

Fixpoint lookup (name : string) (es : entries) : option node :=
  match es with
  | [] => None
  | (k, n) :: rest => if String.eqb k name then Some n else lookup name rest
  end.

Definition remove (name : string) (es : entries) : entries :=
  filter (fun e => negb (String.eqb (fst e) name)) es.

(** Replaces the entry of that name, or adds one at the end. *)
Fixpoint put (name : string) (n : node) (es : entries) : entries :=
  match es with
  | [] => [(name, n)]
  | (k, v) :: rest =>
      if String.eqb k name then (name, n) :: rest else (k, v) :: put name n rest
  end.

(** The exceptions the script can end with. *)
Inductive script_error : Type :=
| FileExistsError
| FileNotFoundError
| NotADirectoryError
| IsADirectoryError
| CalledProcessError (code : Z) (cmd : list string)
| TableError
| CheckError (e : exn).

(** Runs [f] on the entries of the directory reached through [dir], as the
    operating system resolves a path: a missing component is a
    [FileNotFoundError], a file on the way a [NotADirectoryError]. *)
Fixpoint in_dir (dir : list string) (f : entries -> script_error + entries)
    (es : entries) : script_error + entries :=
  match dir with
  | [] => f es
  | name :: rest =>
      match lookup name es with
      | None => inl FileNotFoundError
      | Some (File _) => inl NotADirectoryError
      | Some (Dir sub) =>
          match in_dir rest f sub with
          | inl e => inl e
          | inr sub' => inr (put name (Dir sub') es)
          end
      end
  end.

(** [os.mkdir]. *)
Definition mkdir (dir : list string) (name : string) (es : entries)
  : script_error + entries :=
  in_dir dir (fun d => match lookup name d with
                       | Some _ => inl FileExistsError
                       | None => inr (put name (Dir []) d)
                       end) es.

(** [Path.mkdir(parents=True, exist_ok=True)] on the directory [dir]. *)
Fixpoint ensure_dir (dir : list string) (es : entries) : script_error + entries :=
  match dir with
  | [] => inr es
  | name :: rest =>
      match lookup name es with
      | None =>
          match ensure_dir rest [] with
          | inl e => inl e
          | inr sub => inr (put name (Dir sub) es)
          end
      | Some (Dir sub) =>
          match ensure_dir rest sub with
          | inl e => inl e
          | inr sub' => inr (put name (Dir sub') es)
          end
      | Some (File _) =>
          inl (match rest with [] => FileExistsError | _ => NotADirectoryError end)
      end
  end.

(** [Path.mkdir(parents=True)]: [os.mkdir] first; only a
    [FileNotFoundError] makes it create the parents and try again. *)
Definition mkdir_parents (dir : list string) (name : string) (es : entries)
  : script_error + entries :=
  match mkdir dir name es with
  | inl FileNotFoundError =>
      match ensure_dir dir es with
      | inl e => inl e
      | inr es' => mkdir dir name es'
      end
  | r => r
  end.

(** [Path.write_text]: creates or overwrites a file in an existing
    directory. *)
Definition write_text (dir : list string) (name text : string) (es : entries)
  : script_error + entries :=
  in_dir dir (fun d => match lookup name d with
                       | Some (Dir _) => inl IsADirectoryError
                       | _ => inr (put name (File text) d)
                       end) es.

(** [shutil.rmtree] of an entry of the script's directory. *)
Definition rmtree (name : string) (es : entries) : script_error + entries :=
  match lookup name es with
  | None => inl FileNotFoundError
  | Some (File _) => inl NotADirectoryError
  | Some (Dir _) => inr (remove name es)
  end.

(** [case_dir = test_dir / "case"]; the state is what [test_dir] holds. *)
Definition case_dir : string := "case".

(** How a sequence of steps on the tree ends: with the tree it produced,
    or with an exception and the tree as it was when the exception was
    raised.  A single step that fails changes nothing. *)
Inductive fs_result : Type :=
| Done (es : entries)
| Failed (e : script_error) (es : entries).

Definition and_then (r : fs_result)
    (k : entries -> script_error + entries) : fs_result :=
  match r with
  | Failed e es => Failed e es
  | Done es =>
      match k es with
      | inl e => Failed e es
      | inr es' => Done es'
      end
  end.

Notation "r >>= k" := (and_then r k) (at level 50, left associativity).

(** Lines 25-30. *)
Definition prepare_case (es : entries) : fs_result :=
  Done es
  >>= (fun es => match lookup case_dir es with
                 | Some _ => rmtree case_dir es
                 | None => inr es
                 end)
  >>= mkdir_parents [case_dir] "system"
  >>= mkdir [case_dir] "constant"
  >>= mkdir [case_dir] "0".

Section Dictionaries.
(** [textwrap.dedent], a function of the standard library. *)
Variable dedent : string -> string.

(** Lines 33-43. *)
Definition foam_header (obj_name : string) : string :=
  dedent (foam_header_head ++ obj_name ++ foam_header_tail).

(** The nine files of [write_dictionaries], in the order written:
    directory under the case, file name, text. *)
Definition dictionaries : list (string * string * string) :=
  [ ("system", "blockMeshDict", foam_header "blockMeshDict" ++ dedent blockMeshDict_text);
    ("system", "fvSchemes", foam_header "fvSchemes" ++ dedent fvSchemes_text);
    ("system", "fvSolution", foam_header "fvSolution" ++ dedent fvSolution_text);
    ("system", "controlDict", foam_header "controlDict" ++ dedent controlDict_text);
    ("constant", "transportProperties",
     foam_header "transportProperties" ++ dedent transportProperties_text);
    ("constant", "momentumTransport",
     foam_header "momentumTransport" ++ "simulationType laminar;
");
    ("0", "U", foam_header "U" ++ dedent U_field_text);
    ("0", "p", foam_header "p" ++ dedent p_field_text);
    ("system", "sampleDict", dedent sampleDict_text) ]%string.

(** Lines 46-223. *)
Definition write_dictionaries (es : entries) : fs_result :=
  fold_left
    (fun r d => r >>= write_text [case_dir; fst (fst d)] (snd (fst d)) (snd d))
    dictionaries (Done es).
End Dictionaries.

(** ** The pipeline of [main] (test_cube.py, lines 16-18 and 226-249) *)

(** [open] for reading, as [np.loadtxt] does. *)
Fixpoint read_text (dir : list string) (name : string) (es : entries)
  : script_error + string :=
  match dir with
  | [] =>
      match lookup name es with
      | None => inl FileNotFoundError
      | Some (Dir _) => inl IsADirectoryError
      | Some (File text) => inr text
      end
  | d :: rest =>
      match lookup d es with
      | None => inl FileNotFoundError
      | Some (File _) => inl NotADirectoryError
      | Some (Dir sub) => read_text rest name sub
      end
  end.

Section Pipeline.
Context {F : Type} {AF : Arith F}.

(** What the script does not compute itself: [textwrap.dedent]; the string
    [str(case_dir)]; the external programs, which take the directory tree to
    an exit code and a new tree, or cannot be started; and the reading of
    the sampled table by [np.loadtxt] with the two column slices, which
    yields the rows [(x, u)] or fails. *)
Variable dedent : string -> string.
Variable case_path : string.
Variable tool : list string -> entries -> option (Z * entries).
Variable read_table : string -> option (samples (F:=F)).

Inductive output : Type :=
| Echo (text : string)
| Report (e : event (F:=F)).

(** The directory tree and what has been printed so far. *)
Record state : Type := { tree : entries; printed : list output }.

Definition script (A : Type) : Type := state -> (script_error + A) * state.

Definition ret {A : Type} (a : A) : script A := fun st => (inr a, st).

Definition raise {A : Type} (e : script_error) : script A := fun st => (inl e, st).

Definition bind {A B : Type} (m : script A) (k : A -> script B) : script B :=
  fun st =>
    match m st with
    | (inl e, st') => (inl e, st')
    | (inr a, st') => k a st'
    end.

Definition print (o : output) : script unit :=
  fun st => (inr tt, {| tree := tree st; printed := printed st ++ [o] |}).

(** Steps that only change the tree. *)
Definition on_tree (f : entries -> fs_result) : script unit :=
  fun st =>
    match f (tree st) with
    | Failed e es => (inl e, {| tree := es; printed := printed st |})
    | Done es => (inr tt, {| tree := es; printed := printed st |})
    end.

(** Lines 16-18: [subprocess.check_call] raises on a nonzero exit code. *)
Definition run (cmd : list string) : script unit :=
  bind (print (Echo (">>> " ++ String.concat " " cmd)))
    (fun _ st =>
       match tool cmd (tree st) with
       | None => (inl FileNotFoundError, st)
       | Some (code, es) =>
           let st' := {| tree := es; printed := printed st |} in
           if Z.eqb code 0 then (inr tt, st')
           else (inl (CalledProcessError code cmd), st')
       end).

(** Lines 238-241. *)
Definition load_table : script (samples (F:=F)) :=
  fun st =>
    match read_text [case_dir; "postProcessing"; "sets"; "200"]%string
                    "centerLine_U.xy" (tree st) with
    | inl e => (inl e, st)
    | inr text =>
        match read_table text with
        | None => (inl TableError, st)
        | Some data => (inr data, st)
        end
    end.

(** Lines 243-249, through [main] above. *)
Definition check (data : samples (F:=F)) : script unit :=
  fun st =>
    let st' := {| tree := tree st;
                  printed := printed st ++ map Report (fst (main data)) |} in
    match snd (main data) with
    | Returned _ => (inr tt, st')
    | Raised e => (inl (CheckError e), st')
    end.

Definition blockMesh_cmd : list string := ["blockMesh"; "-case"; case_path]%string.
Definition simpleFoam_cmd : list string := ["simpleFoam"; "-case"; case_path]%string.
Definition postProcess_cmd : list string :=
  ["postProcess"; "-case"; case_path; "-func"; "sample"]%string.

(** Lines 226-249. *)
Definition main_script : script unit :=
  bind (on_tree prepare_case) (fun _ =>
  bind (on_tree (write_dictionaries dedent)) (fun _ =>
  bind (run blockMesh_cmd) (fun _ =>
  bind (run simpleFoam_cmd) (fun _ =>
  bind (run postProcess_cmd) (fun _ =>
  bind load_table check))))).

End Pipeline.

(** ** Vocabulary of the statements *)

Section Updates.
Context {F : Type}.

Definition with_ly (p : ChamberParameters (F:=F)) (v : F) : ChamberParameters :=
  {| lx := lx p; ly := v; lz := lz p;
     tube_id := tube_id p; tube_len := tube_len p;
     mesh_x := mesh_x p; mesh_thk := mesh_thk p;
     out_id := out_id p; out_depth := out_depth p |}.

Definition with_thickness (p : ChamberParameters (F:=F)) (v : F) : ChamberParameters :=
  {| lx := lx p; ly := ly p; lz := lz p;
     tube_id := tube_id p; tube_len := tube_len p;
     mesh_x := mesh_x p; mesh_thk := v;
     out_id := out_id p; out_depth := out_depth p |}.

Definition with_mesh_x (p : ChamberParameters (F:=F)) (v : F) : ChamberParameters :=
  {| lx := lx p; ly := ly p; lz := lz p;
     tube_id := tube_id p; tube_len := tube_len p;
     mesh_x := v; mesh_thk := mesh_thk p;
     out_id := out_id p; out_depth := out_depth p |}.

Definition with_lx (p : ChamberParameters (F:=F)) (v : F) : ChamberParameters :=
  {| lx := v; ly := ly p; lz := lz p;
     tube_id := tube_id p; tube_len := tube_len p;
     mesh_x := mesh_x p; mesh_thk := mesh_thk p;
     out_id := out_id p; out_depth := out_depth p |}.
End Updates.

(** The statements the script's primitives and boolean operations reduce to. *)
Definition csg_part {F : Type} (prog : list (instr (F:=F))) : list instr :=
  filter (fun i => match csg_kind_of i with Some _ => true | None => false end) prog.

(** *** Real reading *)

Definition Rparams : Type := ChamberParameters (F:=R).
Definition Rbox : Type := bbox (F:=R).
Definition Rvec : Type := vec3 (F:=R).

(** The invariants the data model puts on [ChamberParameters]; the script
    checks none of them. *)
Definition valid (p : Rparams) : Prop :=
  (0 < lx p /\ 0 < ly p /\ 0 < lz p
   /\ 0 < tube_id p /\ 0 < tube_len p /\ 0 < mesh_thk p
   /\ 0 < out_id p /\ 0 < out_depth p
   /\ tube_id p < Rmin (lx p) (ly p) /\ out_id p < Rmin (lx p) (ly p)
   /\ 0 < mesh_x p < lx p)%R.

Definition box_contains (b : Rbox) (pt : R * R * R) : Prop :=
  let '((xl, yl, zl), (xh, yh, zh)) := box_values b in
  let '(x, y, z) := pt in
  (xl <= x <= xh /\ yl <= y <= yh /\ zl <= z <= zh)%R.

Definition box_volume (b : Rbox) : R :=
  let '((xl, yl, zl), (xh, yh, zh)) := box_values b in
  ((xh - xl) * (yh - yl) * (zh - zl))%R.

Definition box_nonempty (b : Rbox) : Prop :=
  let '((xl, yl, zl), (xh, yh, zh)) := box_values b in
  (xl < xh /\ yl < yh /\ zl < zh)%R.

(** A region selects a non-empty part of space: a box of positive extent
    and volume, or everything. *)
Definition region_nonempty (r : BoundaryRegion (F:=R)) : Prop :=
  match region_selector r with
  | InBoundingBox b => box_nonempty b /\ (0 < box_volume b)%R
  | AllSurfaces => True
  end.

(** The claim read to the letter: the region has a bounding box, and it is
    non-empty. *)
Definition region_has_nonempty_box (r : BoundaryRegion (F:=R)) : Prop :=
  exists b, region_selector r = InBoundingBox b
            /\ box_nonempty b /\ (0 < box_volume b)%R.

Definition region_names {F : Type} (rs : list (BoundaryRegion (F:=F))) : list string :=
  map (@region_name F) rs.

(** The x-extent of the mesh region's box. *)
Definition mesh_slab (p : Rparams) : option (R * R) :=
  match region_box "mesh" (classify p) with
  | Some b => Some (eval (xmin b), eval (xmax b))
  | None => None
  end.

(** The slab holds both x-planes of the plate box (handle 4). *)
Definition slab_holds_plate_faces (p : Rparams) : Prop :=
  match mesh_slab p, box_x_planes 4 (geo_template p) with
  | Some (xl, xh), Some (x0, x1) => (xl <= x0 <= xh /\ xl <= x1 <= xh)%R
  | _, _ => False
  end.

(** The default chamber with a plate 0.2 thick, and the default chamber
    with [ly = -1]. *)
Definition thick_plate : Rparams := with_thickness params (2 / 10)%R.
Definition negative_ly : Rparams := with_ly params (-1)%R.

(** *** Binary64 reading *)

Definition params64 : ChamberParameters (F:=spec_float) := params.

(** The exact value of a finite double. *)
Definition b64_value (x : spec_float) : option Q :=
  match x with
  | S754_zero _ => Some 0%Q
  | S754_finite s m e =>
      Some (inject_Z (cond_Zopp s (Zpos m)) * Qpower 2 e)%Q
  | _ => None
  end.

Definition box_contains64 (b : bbox (F:=spec_float))
    (pt : spec_float * spec_float * spec_float) : bool :=
  let '((xl, yl, zl), (xh, yh, zh)) := box_values b in
  let '(x, y, z) := pt in
  SFleb xl x && SFleb x xh && SFleb yl y && SFleb y yh && SFleb zl z && SFleb z zh.

(** Both x-planes of the plate box lie strictly outside the slab. *)
Definition slab_misses_plate64 (p : ChamberParameters (F:=spec_float)) : bool :=
  match region_box "mesh" (classify p), box_x_planes 4 (geo_template p) with
  | Some b, Some (x0, x1) =>
      SFltb x0 (eval (xmin b)) && SFltb (eval (xmax b)) x1
  | _, _ => false
  end.

(** Both x-planes of the plate box lie in the slab, bounds included.  The
    far plane is the origin of the box plus its extent, as the engine adds
    them: [(mesh_x - mesh_thk/2) + mesh_thk], rounded twice. *)
Definition slab_holds_plate64 (p : ChamberParameters (F:=spec_float)) : bool :=
  match region_box "mesh" (classify p), box_x_planes 4 (geo_template p) with
  | Some b, Some (x0, x1) =>
      SFleb (eval (xmin b)) x0 && SFleb x0 (eval (xmax b))
      && SFleb (eval (xmin b)) x1 && SFleb x1 (eval (xmax b))
  | _, _ => false
  end.

Definition b64_min (a b : spec_float) : spec_float := if SFltb a b then a else b.

(** The invariants of the data model, on doubles. *)
Definition valid64 (p : ChamberParameters (F:=spec_float)) : bool :=
  let pos := SFltb (S754_zero false) in
  pos (lx p) && pos (ly p) && pos (lz p)
  && pos (tube_id p) && pos (tube_len p) && pos (mesh_thk p)
  && pos (out_id p) && pos (out_depth p)
  && SFltb (tube_id p) (b64_min (lx p) (ly p))
  && SFltb (out_id p) (b64_min (lx p) (ly p))
  && pos (mesh_x p) && SFltb (mesh_x p) (lx p).

(** Strictly positive extent in x, y and z. *)
Definition box_nonempty64 (b : bbox (F:=spec_float)) : bool :=
  let '((xl, yl, zl), (xh, yh, zh)) := box_values b in
  SFltb xl xh && SFltb yl yh && SFltb zl zh.

(** The default chamber with the plate at x = 5 and 0.12 thick; and the
    chamber [2^51] long with the plate at x = [2^50], where neighbouring
    doubles are 0.25 apart. *)
Definition boundary_plate64 : ChamberParameters (F:=spec_float) :=
  with_thickness (with_mesh_x params64 (lit 5 1)) (lit 12 100).
Definition wide_chamber64 : ChamberParameters (F:=spec_float) :=
  with_mesh_x (with_lx params64 (b64_of_Z (2 ^ 51))) (b64_of_Z (2 ^ 50)).

(** [lo <= hi - margin] and [lo + margin <= hi] on exact values. *)
Definition margin_at_least (m : Q) (lo c hi : spec_float) : bool :=
  match b64_value lo, b64_value c, b64_value hi with
  | Some l, Some v, Some h => Qle_bool m (v - l) && Qle_bool m (h - v)
  | _, _, _ => false
  end.

(** *** Frames and faces *)

Definition orthonormal (f : Rvec * Rvec * Rvec) : Prop :=
  let '(x, y, z) := f in
  (dot x x = 1 /\ dot y y = 1 /\ dot z z = 1
   /\ dot x y = 0 /\ dot x z = 0 /\ dot y z = 0)%R.

Definition in_plane_x (c : R) (face : list Rvec) : Prop :=
  Forall (fun v => vx v = c) face.

Definition in_plane_z (c : R) (face : list Rvec) : Prop :=
  Forall (fun v => vz v = c) face.

Definition vec64 : Type := vec3 (F:=spec_float).

Definition in_plane_x64 (c : spec_float) (face : list vec64) : bool :=
  forallb (fun v => SFeqb (vx v) c) face.

Definition in_plane_z64 (c : spec_float) (face : list vec64) : bool :=
  forallb (fun v => SFeqb (vz v) c) face.

(** The degeneracy guard in the spec's words: the axis is nearly parallel
    to world-up when [|axis . up| > 0.99], and then the secondary axis is
    the reference. *)
Definition reference_spec {F : Type} {AF : Arith F} (z : vec3) : vec3 (F:=F) :=
  if ltb parallel_threshold (fabs (vz z)) then world_y else world_up.

(** The axis [(sqrt 199, 0, 99)], of norm 100. *)
Definition boundary_axis64 : vec64 :=
  (SFsqrt 53 1024 (b64_of_Z 199), b64_of_Z 0, b64_of_Z 99).

Definition boundary_axis : Rvec := (sqrt 199, 0, 99)%R.

(** The axis [(2^-600, 0, 0)], whose square underflows. *)
Definition tiny_axis64 : vec64 :=
  (S754_finite false 4503599627370496 (-652), b64_of_Z 0, b64_of_Z 0).

Definition zero_axis64 : vec64 := (b64_of_Z 0, b64_of_Z 0, b64_of_Z 0).

Definition nan_vertex (v : vec64) : bool :=
  is_nan (vx v) && is_nan (vy v) && is_nan (vz v).

Definition finite_vertex (v : vec64) : bool :=
  is_finite (vx v) && is_finite (vy v) && is_finite (vz v).

Definition zero64 (v : vec64) : bool :=
  SFeqb (vx v) (b64_of_Z 0) && SFeqb (vy v) (b64_of_Z 0) && SFeqb (vz v) (b64_of_Z 0).

(** The inlet tube as the preview draws it. *)
Definition inlet_base64 : vec64 := (b64_of_Z 4, b64_of_Z 10, b64_of_Z 2).
Definition inlet_radius64 : spec_float := div (tube_id params64) (lit 2 1).

Definition boundary_unit64 : vec64 := unit_axis boundary_axis64.
Definition up_axis : Rvec := (0, 0, 1)%R.
Definition up_axis64 : vec64 := (b64_of_Z 0, b64_of_Z 0, b64_of_Z 1).

(** *** The comparison *)

(** The analytic profile scaled by [c]. *)
Definition parabola (c x : R) : R := (c * (1 - (x / 5) ^ 2))%R.

(** Two small tables of samples [(x, u)]: the second is the parabola of
    peak 1 at x = 0 and x = 5, the first is off it at x = 5. *)
Definition failing_table : samples (F:=spec_float) :=
  [(b64_of_Z 0, b64_of_Z 1); (b64_of_Z 5, b64_of_Z 1)].
Definition passing_table : samples (F:=spec_float) :=
  [(b64_of_Z 0, b64_of_Z 1); (b64_of_Z 5, b64_of_Z 0)].

(** The parabola of peak [2^-600] sampled at x = 0 and x = 5: two rows,
    [0 2^-600] and [5 0]. *)
Definition tiny_peak : spec_float := S754_finite false 4503599627370496 (-652).
Definition tiny_table : samples (F:=spec_float) :=
  [(b64_of_Z 0, tiny_peak); (b64_of_Z 5, b64_of_Z 0)].

(** Opens a hypothesis that puts all vertices of a face in one plane. *)
Ltac open_face :=
  repeat match goal with
         | H : in_plane_x _ (_ :: _) |- _ => inversion_clear H
         | H : Forall _ (_ :: _) |- _ => inversion_clear H
         end.

(** *** Vocabulary for the preview and the boxes *)

Section ScriptReaders.
Context {F : Type} {AF : Arith F}.

(** Base point, axis vector and radius of the cylinder created under
    handle [h]. *)
Fixpoint cylinder_of (h : handle) (prog : list (instr (F:=F)))
  : option (vec3 * vec3 * F) :=
  match prog with
  | [] => None
  | Cylinder h' x y z ax ay az r :: rest =>
      if Nat.eqb h' h
      then Some ((eval x, eval y, eval z), (eval ax, eval ay, eval az), eval r)
      else cylinder_of h rest
  | _ :: rest => cylinder_of h rest
  end.

(** Origin and extents of the box created under handle [h]. *)
Fixpoint box_of (h : handle) (prog : list (instr (F:=F)))
  : option (vec3 * vec3) :=
  match prog with
  | [] => None
  | Box h' x y z dx dy dz :: rest =>
      if Nat.eqb h' h
      then Some ((eval x, eval y, eval z), (eval dx, eval dy, eval dz))
      else box_of h rest
  | _ :: rest => box_of h rest
  end.

(** The corner of the block from the origin to [(ax, ay, az)] picked by
    three bits. *)
Definition corner (ax ay az : F) (i j k : bool) : vec3 :=
  (if i then ax else lit 0 1, if j then ay else lit 0 1, if k then az else lit 0 1).

(** The face of index [i] in the strip over a ring [c0] of [n] points
    translated by [vec]. *)
Definition strip_face (vec : vec3 (F:=F)) (c0 : list vec3) (n i : nat) : list vec3 :=
  [ nth i c0 zero3; nth (Nat.modulo (i + 1) n) c0 zero3;
    vadd (nth (Nat.modulo (i + 1) n) c0 zero3) vec; vadd (nth i c0 zero3) vec ].

(** The consecutive point pairs of a polyline. *)
Fixpoint segments (l : list (vec3 (F:=F))) : list (vec3 * vec3) :=
  match l with
  | a :: (b :: _) as rest => (a, b) :: segments rest
  | _ => []
  end.
End ScriptReaders.

(** Exactly one of the three bit pairs differs. *)
Definition one_bit_apart (i j k i' j' k' : bool) : bool :=
  match xorb i i', xorb j j', xorb k k' with
  | true, false, false | false, true, false | false, false, true => true
  | _, _, _ => false
  end.

Definition vsub (a b : Rvec) : Rvec :=
  (vx a - vx b, vy a - vy b, vz a - vz b)%R.

(** [w] lies on the lateral surface of the cylinder with base point [base],
    axis vector [vec] and radius [r], on its bottom rim ([s = 0]) or on its
    top rim ([s = 1]). *)
Definition on_rim (base vec : Rvec) (r : R) (w : Rvec) : Prop :=
  exists s : R,
    (s = 0 \/ s = 1)%R
    /\ dot (vsub (vsub w base) (vscale s vec)) vec = 0%R
    /\ dot (vsub (vsub w base) (vscale s vec)) (vsub (vsub w base) (vscale s vec))
       = (r * r)%R.

(** A quadrilateral whose opposite sides are equal as vectors, and which
    therefore lies in one plane. *)
Definition parallelogram (f : list Rvec) : Prop :=
  match f with
  | [v0; v1; v2; v3] =>
      vsub v2 v1 = vsub v3 v0
      /\ dot (cross (vsub v1 v0) (vsub v2 v0)) (vsub v3 v0) = 0%R
  | _ => False
  end.

(** A parallelogram whose sides [v0 v1] and [v0 v3] are perpendicular. *)
Definition rectangle (f : list Rvec) : Prop :=
  parallelogram f
  /\ match f with
     | [v0; v1; v2; v3] => dot (vsub v1 v0) (vsub v3 v0) = 0%R
     | _ => False
     end.

(** The [k]-th of [n] equally spaced angles of a full turn. *)
Definition turn (n k : nat) : R := (2 * PI * INR k / INR n)%R.

(** The point at angle [t] of the circle of radius [r] about [base] in the
    plane of [x] and [y]. *)
Definition circle_point (base x y : Rvec) (r t : R) : Rvec :=
  (vx base + r * (cos t * vx x + sin t * vx y),
   vy base + r * (cos t * vy x + sin t * vy y),
   vz base + r * (cos t * vz x + sin t * vz y))%R.

(** Side [i] of the prism over the regular [n]-gon inscribed in that
    circle, swept along [a]: from corner [i] to corner [i+1 mod n], up by
    [a], and back. *)
Definition prism_face (base a x y : Rvec) (r : R) (n i : nat) : list Rvec :=
  let pt k := circle_point base x y r (turn n k) in
  [ pt i; pt (Nat.modulo (i + 1) n);
    vadd (pt (Nat.modulo (i + 1) n)) a; vadd (pt i) a ].

(** No point lies in both boxes. *)
Definition boxes_disjoint (a b : Rbox) : Prop :=
  forall pt : R * R * R, ~ (box_contains a pt /\ box_contains b pt).

(** *** Vocabulary for the comparison *)

(** The table with every velocity multiplied by [k]. *)
Definition scale_table (k : R) (data : samples (F:=R)) : samples (F:=R) :=
  map (fun row => (fst row, (k * snd row)%R)) data.

(** The peak [u_num.max()] of a non-empty table. *)
Definition peak {F : Type} {AF : Arith F} (d0 : F * F) (rest : samples (F:=F)) : F :=
  fold_left fmax (map snd rest) (snd d0).

Definition is_zero (x : spec_float) : bool :=
  match x with S754_zero _ => true | _ => false end.

Definition zero_or_nan (x : spec_float) : bool := is_zero x || is_nan x.

Definition nan_row (row : spec_float * spec_float) : bool :=
  is_nan (fst row) || is_nan (snd row).

Definition assertion_message : string := "Velocity deviates >3% from Poiseuille".

(** *** Vocabulary for the case directory and the pipeline *)

(** The empty case: the three directories of [prepare_case]. *)
Definition case_skeleton : node :=
  Dir [("system", Dir []); ("constant", Dir []); ("0", Dir [])]%string.

(** The files that [write_dictionaries] puts into directory [d], in the
    order written. *)
Definition files_of (dedent : string -> string) (d : string) : entries :=
  map (fun f => (snd (fst f), File (snd f)))
      (filter (fun f => String.eqb (fst (fst f)) d) (dictionaries dedent)).

(** The case as the script leaves it before the first program runs. *)
Definition fresh_case (dedent : string -> string) : node :=
  Dir [("system", Dir (files_of dedent "system"));
       ("constant", Dir (files_of dedent "constant"));
       ("0", Dir (files_of dedent "0"))]%string.

(** [prepare_case] and then, if it returned, [write_dictionaries]. *)
Definition rebuild_case (dedent : string -> string) (es : entries) : fs_result :=
  match prepare_case es with
  | Done es' => write_dictionaries dedent es'
  | Failed e es' => Failed e es'
  end.

Definition is_file (n : option node) : bool :=
  match n with Some (File _) => true | _ => false end.

(** The three lines that [run] echoes, in call order. *)
Definition command_lines (case_path : string) : list string :=
  map (fun cmd => (">>> " ++ String.concat " " cmd)%string)
      [blockMesh_cmd case_path; simpleFoam_cmd case_path; postProcess_cmd case_path].

(** Settles the routine parts of a statement about what [main] printed. *)
Ltac trace_parts :=
  split; [reflexivity|];
  split; [lia|];
  split; [intros; congruence|];
  split; [intros; congruence|].

Unset Implicit Arguments.

(** * The geometry script *)

Section ScriptShape.
Context {F : Type} {AF : Arith F}.
Variable p : ChamberParameters (F:=F).

Lemma created_handles : created (geo_template p) = [1; 2; 3; 4].
Proof. reflexivity. Qed.

Lemma stale_references_of_script :
  stale_references [] (geo_template p) = [1; 1; 1].
Proof. reflexivity. Qed.

Lemma boolean_statements_delete :
  forallb (@deletes_operands F) (geo_template p) = true.
Proof. reflexivity. Qed.

Lemma region_names_of_script :
  region_names (classify p) = ["inlet"; "outlet"; "mesh"; "walls"]%string.
Proof. reflexivity. Qed.

(** The box of the mesh region never mentions the plate thickness. *)
Lemma mesh_box_ignores_thickness (th : F) :
  region_box "mesh" (classify (with_thickness p th)) = region_box "mesh" (classify p).
Proof. reflexivity. Qed.
End ScriptShape.

(** C1.  Whatever the parameters, the primitive creations and boolean
    operations of the emitted script are, in this order: a Box (handle 1,
    the envelope of extents lx, ly, lz), a Cylinder (handle 2, the inlet),
    a Cylinder (handle 3, the outlet), a Box (handle 4, the plate), one
    Difference of the envelope against inlet and outlet, one Union with the
    plate. *)
Theorem compile_structure :
  forall (F : Type) (AF : Arith F) (p : ChamberParameters (F:=F)),
    csg_kinds (geo_template p)
    = [KBox; KCylinder; KCylinder; KBox; KDifference; KUnion]
    /\ created (geo_template p) = [1; 2; 3; 4]
    /\ exists inlet_r outlet_r plate_x,
        csg_part (geo_template p)
        = [ Box 1 (dlit 0 1) (dlit 0 1) (dlit 0 1)
                  (Num (lx p)) (Num (ly p)) (Num (lz p));
            Cylinder 2 (dlit 4 1) (dlit 10 1) (dlit 2 1)
                       (dlit 0 1) (dlit 0 1) (Num (tube_len p)) inlet_r;
            Cylinder 3 (dlit 26 1) (dlit 10 1) (Num (lz p))
                       (dlit 0 1) (dlit 0 1) (Neg (Num (out_depth p))) outlet_r;
            Box 4 plate_x (dlit 0 1) (dlit 0 1)
                  (Num (mesh_thk p)) (Num (ly p)) (Num (lz p));
            BooleanDifference [1] true [2; 3] true;
            BooleanFuse [1] true [4] true ].
Proof.
  intros F AF p. split; [reflexivity|]. split; [reflexivity|].
  do 3 eexists. reflexivity.
Qed.

(** C3, as stated, fails on the default script: every boolean statement does
    delete its operands, but the scan for references to consumed handles
    does not come out clean. *)
Lemma consumed_handle_reused :
  ~ (forallb (@deletes_operands spec_float) (geo_template params64) = true
     /\ liveness_check (geo_template params64) = true).
Proof. vm_compute. intros [_ H]. discriminate H. Qed.

(** C3, amended.  Every boolean statement deletes all its operands.  The
    tool handles 2, 3 and 4 are never named again once consumed.  Handle 1
    is: the Difference consumes it, and the Union, the fluid volume tag and
    the characteristic-length statement name it afterwards; these are the
    only three stale references.  Every reference is live once the result
    of a boolean statement is taken to carry the tag of its first object
    operand. *)
Theorem handle_reuse_after_delete :
  forall (F : Type) (AF : Arith F) (p : ChamberParameters (F:=F)),
    forallb (@deletes_operands F) (geo_template p) = true
    /\ stale_references [] (geo_template p) = [1; 1; 1]
    /\ (forall h, In h [2; 3; 4] -> ~ In h (stale_references [] (geo_template p)))
    /\ liveness_check (geo_template p) = false
    /\ live_references [] (geo_template p) = true.
Proof.
  intros F AF p. repeat split; try reflexivity.
  intros h Hh Hs. rewrite stale_references_of_script in Hs.
  simpl in Hh, Hs. intuition lia.
Qed.

(** * Boundary classification *)

Section SlabAndBoxes.
Local Open Scope R_scope.

Lemma mesh_slab_eq (p : Rparams) :
  mesh_slab p = Some (mesh_x p - 6 / 100, mesh_x p + 6 / 100).
Proof. reflexivity. Qed.

(** In exact arithmetic the plate box ends at [mesh_x - mesh_thk/2] and
    [mesh_x + mesh_thk/2]. *)
Lemma plate_planes_eq (p : Rparams) :
  exists x0 x1,
    box_x_planes 4%nat (geo_template p) = Some (x0, x1)
    /\ x0 = mesh_x p - mesh_thk p / 2 /\ x1 = mesh_x p + mesh_thk p / 2.
Proof.
  do 2 eexists. split; [reflexivity|]. cbn. split; field.
Qed.

(** The slab holds both faces exactly when the thickness is at most
    0.12 in absolute value. *)
Lemma slab_holds_iff (p : Rparams) :
  slab_holds_plate_faces p <-> - (12 / 100) <= mesh_thk p <= 12 / 100.
Proof.
  unfold slab_holds_plate_faces. rewrite mesh_slab_eq. cbn. lra.
Qed.
End SlabAndBoxes.

Section SlabTheorems.
Local Open Scope R_scope.

Lemma default_params_valid : valid params.
Proof.
  unfold valid; cbn. repeat split; try lra; apply Rmin_glb_lt; lra.
Qed.

Lemma thick_plate_valid : valid thick_plate.
Proof.
  unfold valid; cbn. repeat split; try lra; apply Rmin_glb_lt; lra.
Qed.
End SlabTheorems.

(** C4, as stated, fails: the default chamber with a plate 0.2 thick is
    valid, its thickness is positive, and its faces at x = 9.9 and x = 10.1
    lie outside the slab from 9.94 to 10.06. *)
Lemma thick_plate_escapes_slab :
  valid thick_plate /\ (0 < mesh_thk thick_plate)%R
  /\ ~ slab_holds_plate_faces thick_plate.
Proof.
  split; [exact thick_plate_valid|]. split; [cbn; lra|].
  rewrite slab_holds_iff. cbn. lra.
Qed.

(** The same chamber on doubles: the plate box starts below the slab and
    ends above it. *)
Lemma thick_plate_escapes_slab64 :
  slab_misses_plate64 (with_thickness params64 (lit 2 10)) = true.
Proof. vm_compute. reflexivity. Qed.

(** C4, amended.  In exact arithmetic, for a plate of positive thickness
    the x-extent of the mesh region's box holds both x-planes of the plate
    box exactly when the thickness is at most 0.12; that extent is
    [mesh_x - 0.06, mesh_x + 0.06] and does not change with the thickness.
    On the doubles of the script the box does not change with the thickness
    either, and it holds the default plate; but the bound 0.12 does not
    carry over to them: for the valid parameters [mesh_x = 5],
    [mesh_thk = 0.12] the far plane [(mesh_x - mesh_thk/2) + mesh_thk] is
    one unit in the last place above [mesh_x + 0.06]. *)
Theorem slab_holds_thin_plate :
  (forall p : Rparams,
      (0 < mesh_thk p)%R ->
      (slab_holds_plate_faces p <-> (mesh_thk p <= 12 / 100)%R)
      /\ (exists x0 x1,
            box_x_planes 4%nat (geo_template p) = Some (x0, x1)
            /\ x0 = mesh_x p - mesh_thk p / 2 /\ x1 = mesh_x p + mesh_thk p / 2)%R
      /\ mesh_slab p = Some (mesh_x p - 6 / 100, mesh_x p + 6 / 100)%R
      /\ forall th : R, mesh_slab (with_thickness p th) = mesh_slab p)
  /\ (forall (p : ChamberParameters (F:=spec_float)) (th : spec_float),
        region_box "mesh" (classify (with_thickness p th))
        = region_box "mesh" (classify p))
  /\ (valid64 params64 = true /\ slab_holds_plate64 params64 = true)
  /\ (valid64 boundary_plate64 = true
      /\ SFltb (S754_zero false) (mesh_thk boundary_plate64) = true
      /\ SFleb (mesh_thk boundary_plate64) (lit 12 100) = true
      /\ slab_holds_plate64 boundary_plate64 = false
      /\ box_x_planes 4%nat (geo_template boundary_plate64)
         = Some (S754_finite false 5561945539802563 (-50),
                 S754_finite false 5697053528623678 (-50))
      /\ option_map (fun b => (eval (xmin b), eval (xmax b)))
                    (region_box "mesh" (classify boundary_plate64))
         = Some (S754_finite false 5561945539802563 (-50),
                 S754_finite false 5697053528623677 (-50))).
Proof.
  split; [|split; [|split]].
  - intros p Hth. split.
    + rewrite slab_holds_iff. split; intros H; [apply H | split; lra].
    + split; [apply plate_planes_eq|]. split; reflexivity.
  - intros p th. reflexivity.
  - split; vm_compute; reflexivity.
  - repeat split; vm_compute; reflexivity.
Qed.

Lemma slab_holds_thin_plate_witness :
  (0 < mesh_thk (params : Rparams))%R
  /\ (mesh_thk (params : Rparams) <= 12 / 100)%R
  /\ slab_holds_plate_faces params.
Proof.
  assert (H : (0 < mesh_thk (params : Rparams))%R) by (cbn; lra).
  assert (H' : (mesh_thk (params : Rparams) <= 12 / 100)%R) by (cbn; lra).
  split; [exact H|]. split; [exact H'|].
  exact (proj2 (proj1 (proj1 slab_holds_thin_plate params H)) H').
Defined.

(** C6, as stated, fails twice over.  For the default parameters the fourth
    region, walls, has no bounding box at all: it is the wildcard.  And the
    three boxes that exist are not non-empty for every parameter record:
    with [ly = -1] the mesh region's box runs from y = -0.1 to y = -0.9. *)
Lemma negative_ly_empty_box :
  ~ Forall region_has_nonempty_box (classify (params : Rparams))
  /\ ~ Forall region_nonempty (classify negative_ly).
Proof.
  split; intros H; unfold classify in H; simpl in H.
  - inversion_clear H as [|? ? _ H1].
    inversion_clear H1 as [|? ? _ H2].
    inversion_clear H2 as [|? ? _ H3].
    inversion_clear H3 as [|? ? H4 _].
    destruct H4 as (b & Hb & _). discriminate Hb.
  - inversion_clear H as [|? ? _ H1].
    inversion_clear H1 as [|? ? _ H2].
    inversion_clear H2 as [|? ? H3 _].
    destruct H3 as [[_ [Hy _]] _]. cbn in Hy. lra.
Qed.

(** On doubles too the mesh box of that chamber ends in y before it starts. *)
Lemma negative_ly_empty_box64 :
  match region_box "mesh" (classify (with_ly params64 (lit (-1) 1))) with
  | Some b => SFltb (eval (ymax b)) (eval (ymin b))
  | None => false
  end = true.
Proof. vm_compute. reflexivity. Qed.

(** C6, amended.  In any arithmetic the regions come out in the order
    inlet, outlet, mesh, walls, and walls carries no box: it is the
    wildcard selector, and it comes last.  In exact arithmetic, for
    parameters with [ly > -0.2] and [lz > -0.2], and so for all valid ones,
    the inlet, outlet and mesh boxes each have positive extents and volume.
    On the doubles of the script the inlet and outlet boxes, which are
    constants, have positive extents for every parameter record, and so has
    the mesh box of the default parameters; but not the mesh box of every
    valid record: with [lx = 2^51] and [mesh_x = 2^50] the margin of 0.06 is
    lost to rounding and the box starts and ends at x = [2^50]. *)
Theorem regions_nonempty_in_order :
  (forall (F : Type) (AF : Arith F) (p : ChamberParameters (F:=F)),
      exists bi bo bm,
        classify p
        = [ {| region_name := "inlet"; region_selector := InBoundingBox bi |};
            {| region_name := "outlet"; region_selector := InBoundingBox bo |};
            {| region_name := "mesh"; region_selector := InBoundingBox bm |};
            {| region_name := "walls"; region_selector := AllSurfaces |} ])
  /\ (forall p : Rparams,
      (- (2 / 10) < ly p)%R -> (- (2 / 10) < lz p)%R ->
      exists bi bo bm,
        classify p
        = [ {| region_name := "inlet"; region_selector := InBoundingBox bi |};
            {| region_name := "outlet"; region_selector := InBoundingBox bo |};
            {| region_name := "mesh"; region_selector := InBoundingBox bm |};
            {| region_name := "walls"; region_selector := AllSurfaces |} ]
        /\ (box_nonempty bi /\ 0 < box_volume bi)%R
        /\ (box_nonempty bo /\ 0 < box_volume bo)%R
        /\ (box_nonempty bm /\ 0 < box_volume bm)%R)
  /\ (forall p : ChamberParameters (F:=spec_float),
        exists bi bo bm,
          classify p
          = [ {| region_name := "inlet"; region_selector := InBoundingBox bi |};
              {| region_name := "outlet"; region_selector := InBoundingBox bo |};
              {| region_name := "mesh"; region_selector := InBoundingBox bm |};
              {| region_name := "walls"; region_selector := AllSurfaces |} ]
          /\ box_nonempty64 bi = true
          /\ box_nonempty64 bo = true
          /\ box_values bm
             = ((SFsub 53 1024 (mesh_x p) (lit 6 100), lit (-1) 10, lit (-1) 10),
                (SFadd 53 1024 (mesh_x p) (lit 6 100),
                 SFadd 53 1024 (ly p) (lit 1 10),
                 SFadd 53 1024 (lz p) (lit 1 10))))
  /\ (valid64 params64 = true
      /\ option_map box_nonempty64 (region_box "mesh" (classify params64))
         = Some true)
  /\ (valid64 wide_chamber64 = true
      /\ option_map box_nonempty64 (region_box "mesh" (classify wide_chamber64))
         = Some false
      /\ option_map (fun b => (eval (xmin b), eval (xmax b)))
                    (region_box "mesh" (classify wide_chamber64))
         = Some (b64_of_Z (2 ^ 50), b64_of_Z (2 ^ 50))).
Proof.
  split; [|split; [|split; [|split]]].
  - intros F AF p. do 3 eexists. reflexivity.
  - intros p Hy Hz. do 3 eexists. split; [reflexivity|].
    unfold box_nonempty, box_volume; cbn.
    repeat split; try lra;
      (apply Rmult_lt_0_compat; [apply Rmult_lt_0_compat|]; lra).
  - intros p. do 3 eexists. split; [reflexivity|].
    split; [vm_compute; reflexivity|]. split; [vm_compute; reflexivity|].
    reflexivity.
  - split; vm_compute; reflexivity.
  - repeat split; vm_compute; reflexivity.
Qed.

Lemma regions_nonempty_in_order_witness :
  (- (2 / 10) < ly (params : Rparams))%R
  /\ (- (2 / 10) < lz (params : Rparams))%R
  /\ region_names (classify (params : Rparams))
     = ["inlet"; "outlet"; "mesh"; "walls"]%string.
Proof.
  assert (Hy : (- (2 / 10) < ly (params : Rparams))%R) by (cbn; lra).
  assert (Hz : (- (2 / 10) < lz (params : Rparams))%R) by (cbn; lra).
  split; [exact Hy|]. split; [exact Hz|].
  destruct (proj1 (proj2 regions_nonempty_in_order) params Hy Hz)
    as (bi & bo & bm & Hc & _).
  rewrite Hc. reflexivity.
Defined.

(** Every valid chamber has, in exact arithmetic, non-empty regions. *)
Lemma valid_regions_nonempty (p : Rparams) :
  valid p -> Forall region_nonempty (classify p).
Proof.
  intros (_ & Hy & Hz & _).
  unfold classify; cbn [geo_template boundary_regions].
  repeat (constructor;
          [unfold region_nonempty, box_nonempty, box_volume; cbn;
           try exact I;
           repeat split; try lra;
           (apply Rmult_lt_0_compat; [apply Rmult_lt_0_compat|]; lra)|]).
  constructor.
Qed.

(** C7.  With the default parameters the inlet box contains (4, 10, 20),
    the outlet box contains (26, 10, 18), and the mesh box reaches at least
    0.06 to either side of x = 10: in exact arithmetic, and for the doubles
    that Python computes, compared as exact numbers. *)
Theorem default_boxes :
  (exists bi bo bm,
      region_box "inlet" (classify (params : Rparams)) = Some bi
      /\ region_box "outlet" (classify (params : Rparams)) = Some bo
      /\ region_box "mesh" (classify (params : Rparams)) = Some bm
      /\ box_contains bi (4, 10, 20)%R
      /\ box_contains bo (26, 10, 18)%R
      /\ (eval (xmin bm) <= 10 - 6 / 100 /\ 10 + 6 / 100 <= eval (xmax bm))%R)
  /\ (exists bi bo bm,
      region_box "inlet" (classify params64) = Some bi
      /\ region_box "outlet" (classify params64) = Some bo
      /\ region_box "mesh" (classify params64) = Some bm
      /\ box_contains64 bi (b64_of_Z 4, b64_of_Z 10, b64_of_Z 20) = true
      /\ box_contains64 bo (b64_of_Z 26, b64_of_Z 10, b64_of_Z 18) = true
      /\ margin_at_least (6 # 100) (eval (xmin bm)) (b64_of_Z 10) (eval (xmax bm)) = true).
Proof.
  split.
  - do 3 eexists. split; [reflexivity|]. split; [reflexivity|].
    split; [reflexivity|]. unfold box_contains. cbn. lra.
  - do 3 eexists. split; [reflexivity|]. split; [reflexivity|].
    split; [reflexivity|]. repeat split; vm_compute; reflexivity.
Qed.

(** * Preview tessellation *)

Section FrameFacts.
Local Open Scope R_scope.

Lemma dot_self_nonneg (v : Rvec) : 0 <= dot v v.
Proof. destruct v as [[a b] c]. cbn. nra. Qed.

Lemma dot_self_pos (v : Rvec) : v <> (0, 0, 0) -> 0 < dot v v.
Proof.
  destruct v as [[a b] c]. intros Hv. cbn.
  destruct (Req_dec a 0) as [Ha|Ha]; [|nra].
  destruct (Req_dec b 0) as [Hb|Hb]; [|nra].
  destruct (Req_dec c 0) as [Hc|Hc]; [|nra].
  subst. now elim Hv.
Qed.

Lemma norm_pos (v : Rvec) : v <> (0, 0, 0) -> 0 < norm v.
Proof. intros Hv. apply sqrt_lt_R0, dot_self_pos, Hv. Qed.

Lemma norm_sqr (v : Rvec) : norm v * norm v = dot v v.
Proof. apply sqrt_sqrt, dot_self_nonneg. Qed.

Lemma unit_axis_unit (v : Rvec) : v <> (0, 0, 0) -> dot (unit_axis v) (unit_axis v) = 1.
Proof.
  intros Hv. pose proof (norm_pos v Hv) as HN. pose proof (norm_sqr v) as HS.
  unfold unit_axis. set (N := norm v) in *. clearbody N.
  destruct v as [[a b] c]. cbn in *.
  field_simplify_eq; [|lra]. nra.
Qed.

Lemma raw_of_unit (z : Rvec) : dot z z = 1 ->
  let r := cross (reference z) z in
  199/10000 <= dot r r /\ dot r z = 0.
Proof.
  destruct z as [[z0 z1] z2]. intros Hz. unfold reference, parallel_threshold.
  cbn in Hz. cbn -[Rabs]. unfold Rltb. destruct (Rlt_dec _ _) as [Hlt|Hge]; cbn.
  - split; [|ring]. apply Rabs_def2 in Hlt. nra.
  - split; [|ring]. apply Rnot_lt_le in Hge.
    assert (99/100 <= z2 \/ z2 <= -(99/100)).
    { unfold Rabs in Hge. destruct (Rcase_abs z2); lra. }
    nra.
Qed.
End FrameFacts.
Section CrossProducts.
Local Open Scope R_scope.

Lemma lagrange (a b : Rvec) :
  dot (cross a b) (cross a b) = dot a a * dot b b - dot a b * dot a b.
Proof. destruct a as [[a0 a1] a2], b as [[b0 b1] b2]. cbn. ring. Qed.

Lemma cross_dot_left (a b : Rvec) : dot (cross a b) a = 0.
Proof. destruct a as [[a0 a1] a2], b as [[b0 b1] b2]. cbn. ring. Qed.

Lemma cross_dot_right (a b : Rvec) : dot (cross a b) b = 0.
Proof. destruct a as [[a0 a1] a2], b as [[b0 b1] b2]. cbn. ring. Qed.

Lemma dot_comm (a b : Rvec) : dot a b = dot b a.
Proof. destruct a as [[a0 a1] a2], b as [[b0 b1] b2]. cbn. ring. Qed.

Lemma dot_vdiv_l (a b : Rvec) (k : R) : dot (vdiv a k) b = dot a b / k.
Proof. destruct a as [[a0 a1] a2], b as [[b0 b1] b2]. cbn. unfold Rdiv. ring. Qed.

Lemma dot_vdiv_r (a b : Rvec) (k : R) : dot a (vdiv b k) = dot a b / k.
Proof. rewrite dot_comm, dot_vdiv_l, dot_comm. reflexivity. Qed.

Lemma frame_of_unit (z r : Rvec) :
  dot z z = 1 -> dot r z = 0 -> 0 < dot r r ->
  orthonormal (vdiv r (sqrt (dot r r)), cross z (vdiv r (sqrt (dot r r))), z).
Proof.
  intros Hz Hrz Hr.
  set (M := sqrt (dot r r)).
  assert (HM : 0 < M) by (apply sqrt_lt_R0, Hr).
  assert (HS : M * M = dot r r) by (apply sqrt_sqrt; lra).
  assert (Hxx : dot (vdiv r M) (vdiv r M) = 1).
  { rewrite dot_vdiv_l, dot_vdiv_r. rewrite <- HS. field. lra. }
  assert (Hxz : dot (vdiv r M) z = 0).
  { rewrite dot_vdiv_l, Hrz. field. lra. }
  unfold orthonormal. repeat split; trivial.
  - rewrite lagrange, Hz, Hxx. rewrite (dot_comm z), Hxz. ring.
  - rewrite dot_comm. apply cross_dot_right.
  - apply cross_dot_left.
Qed.
End CrossProducts.

Section FrameGuard.
Local Open Scope R_scope.

Lemma raw_x_cases (vec : Rvec) :
  (Rabs (vz (unit_axis vec)) < 99 / 100 ->
   raw_x vec = cross world_up (unit_axis vec))
  /\ (99 / 100 <= Rabs (vz (unit_axis vec)) ->
      raw_x vec = cross world_y (unit_axis vec)).
Proof.
  unfold raw_x, reference, parallel_threshold. cbn -[Rabs unit_axis cross].
  unfold Rltb. destruct (Rlt_dec _ _); split; intros; try reflexivity; lra.
Qed.

Lemma raw_x_long (vec : Rvec) :
  vec <> (0, 0, 0) ->
  199 / 10000 <= dot (raw_x vec) (raw_x vec) /\ 141 / 1000 < norm (raw_x vec).
Proof.
  intros Hv.
  destruct (raw_of_unit (unit_axis vec) (unit_axis_unit vec Hv)) as [Hd _].
  fold (raw_x vec) in Hd. split; [exact Hd|].
  unfold norm. cbn [fsqrt Rarith].
  rewrite <- (sqrt_square (141 / 1000)) by lra.
  apply sqrt_lt_1; lra.
Qed.

Lemma frame_orthonormal (vec : Rvec) :
  vec <> (0, 0, 0) -> orthonormal (frame vec).
Proof.
  intros Hv.
  pose proof (unit_axis_unit vec Hv) as Hz.
  destruct (raw_of_unit (unit_axis vec) Hz) as [Hd Hrz].
  fold (raw_x vec) in Hd, Hrz.
  unfold frame, norm. cbn [fsqrt Rarith].
  apply frame_of_unit; trivial. lra.
Qed.

(** The same boundary in exact arithmetic: the axis (sqrt 199, 0, 99) has
    norm 100 and its unit vector has third component 0.99. *)
Lemma boundary_axis_real :
  vz (unit_axis boundary_axis) = 99 / 100
  /\ reference (unit_axis boundary_axis) = world_y
  /\ reference_spec (unit_axis boundary_axis) = world_up.
Proof.
  assert (HN : norm boundary_axis = 100).
  { unfold norm, boundary_axis. cbn.
    rewrite sqrt_sqrt by lra.
    replace (199 + 0 * 0 + 99 * 99) with (100 * 100) by ring.
    apply sqrt_square. lra. }
  assert (Hz : vz (unit_axis boundary_axis) = 99 / 100).
  { unfold unit_axis. rewrite HN. reflexivity. }
  split; [exact Hz|].
  unfold reference, reference_spec, parallel_threshold. rewrite Hz.
  cbn -[Rabs]. unfold Rltb.
  rewrite Rabs_pos_eq by lra.
  destruct (Rlt_dec _ _) as [H|H]; [lra|]. split; reflexivity.
Qed.
End FrameGuard.

(** C5, as stated, fails at the threshold itself.  The doubles
    (sqrt 199, 0, 99) normalise to a unit axis whose third component is
    exactly the double 0.99; [0.99 > 0.99] is false, so the spec's test
    selects world-up, while the code's [abs(z[2]) < 0.99] is false too and
    selects the secondary axis. *)
Lemma boundary_axis_takes_secondary :
  vz boundary_unit64 = lit 99 100
  /\ reference boundary_unit64 = world_y
  /\ reference_spec boundary_unit64 = world_up
  /\ reference boundary_unit64 <> reference_spec boundary_unit64.
Proof.
  vm_compute. repeat split; try reflexivity. discriminate.
Qed.

(** C5, amended.  For every nonzero axis, with [z] its unit vector: the
    vector to normalise is world-up x z exactly when [|z[2]| < 0.99] and
    (0,1,0) x z when [|z[2]| >= 0.99]; its squared length is at least
    0.0199, so its length exceeds 0.141; and the three vectors returned are
    orthonormal. *)
Theorem frame_guard :
  forall vec : Rvec,
    vec <> (0, 0, 0)%R ->
    ((Rabs (vz (unit_axis vec)) < 99 / 100)%R ->
     raw_x vec = cross world_up (unit_axis vec))
    /\ ((99 / 100 <= Rabs (vz (unit_axis vec)))%R ->
        raw_x vec = cross world_y (unit_axis vec))
    /\ (199 / 10000 <= dot (raw_x vec) (raw_x vec))%R
    /\ (141 / 1000 < norm (raw_x vec))%R
    /\ orthonormal (frame vec).
Proof.
  intros vec Hv.
  destruct (raw_x_cases vec) as [H1 H2].
  destruct (raw_x_long vec Hv) as [H3 H4].
  repeat split; trivial; apply (frame_orthonormal vec Hv).
Qed.

Lemma frame_guard_witness :
  up_axis <> (0, 0, 0)%R /\ orthonormal (frame up_axis).
Proof.
  assert (H : up_axis <> (0, 0, 0)%R).
  { unfold up_axis. intros E. injection E as E. lra. }
  split; [exact H|].
  exact (proj2 (proj2 (proj2 (proj2 (frame_guard up_axis H))))).
Defined.

(** The frame of the axis (0, 0, 1) in binary64: x = (1, 0, 0),
    y = (0, 1, 0), z = (0, 0, 1), through the secondary axis. *)
Lemma frame_up_axis64 :
  reference (unit_axis up_axis64) = world_y
  /\ raw_x up_axis64 = (b64_of_Z 1, b64_of_Z 0, b64_of_Z 0)
  /\ frame up_axis64
     = ((b64_of_Z 1, b64_of_Z 0, b64_of_Z 0),
        (b64_of_Z 0, b64_of_Z 1, b64_of_Z 0),
        (b64_of_Z 0, b64_of_Z 0, b64_of_Z 1)).
Proof. vm_compute. repeat split; reflexivity. Qed.

Section NaNPropagation.
Variables cos64 sin64 : spec_float -> spec_float.

Lemma mul_nan_r (a : spec_float) : mul a S754_nan = S754_nan.
Proof. destruct a; reflexivity. Qed.

Lemma add_nan_r (a : spec_float) : add a S754_nan = S754_nan.
Proof. destruct a; reflexivity. Qed.

Lemma add_nan_l (a : spec_float) : add S754_nan a = S754_nan.
Proof. reflexivity. Qed.

Lemma nan_vertex_eq (v : vec64) :
  nan_vertex v = true -> v = (S754_nan, S754_nan, S754_nan).
Proof.
  destruct v as [[a b] c]. unfold nan_vertex; cbn.
  destruct a, b, c; cbn; intros H; try discriminate H; reflexivity.
Qed.

Lemma vadd_nan_l (v : vec64) :
  nan_vertex (vadd (S754_nan, S754_nan, S754_nan) v) = true.
Proof. destruct v as [[a b] c]. reflexivity. Qed.

Lemma ring_point_nan (base y : vec64) (r c s : spec_float) :
  nan_vertex
    (vadd base (vscale r (vadd (vscale c (S754_nan, S754_nan, S754_nan)) (vscale s y))))
  = true.
Proof.
  destruct base as [[b0 b1] b2], y as [[y0 y1] y2].
  unfold vadd, vscale, nan_vertex, vx, vy, vz; cbn [fst snd].
  rewrite !mul_nan_r, !add_nan_r. reflexivity.
Qed.

Lemma ring_length (base vec : vec64) (r : spec_float) (n : nat) :
  List.length (ring (TF:=b64_trig cos64 sin64) base vec r n) = n.
Proof.
  unfold ring. destruct (frame vec) as [[x y] z].
  unfold linspace. rewrite !length_map, length_seq. reflexivity.
Qed.

Lemma ring_nan (base vec : vec64) (r : spec_float) (n : nat) :
  nan_vertex (fst (fst (frame vec))) = true ->
  forall v, In v (ring (TF:=b64_trig cos64 sin64) base vec r n) -> nan_vertex v = true.
Proof.
  unfold ring. destruct (frame vec) as [[x y] z]. cbn [fst].
  intros Hx v Hv. apply nan_vertex_eq in Hx. subst x.
  apply in_map_iff in Hv. destruct Hv as [th [<- _]].
  apply ring_point_nan.
Qed.

Lemma cyl_faces_nan (base vec : vec64) (r : spec_float) (n : nat) :
  nan_vertex (fst (fst (frame vec))) = true ->
  exists faces,
    cyl_faces (TF:=b64_trig cos64 sin64) base vec r (S n) = Returned faces
    /\ List.length faces = S n
    /\ forallb (forallb nan_vertex) faces = true
    /\ forallb (forallb finite_vertex) faces = false.
Proof.
  intros Hx. unfold cyl_faces. eexists. split; [reflexivity|].
  split; [now rewrite length_map, length_seq|].
  pose proof (ring_length base vec r (S n)) as HL.
  pose proof (ring_nan base vec r (S n) Hx) as HN.
  set (c0 := ring base vec r (S n)) in *.
  assert (H0 : forall i, (i < S n)%nat -> nan_vertex (nth i c0 zero3) = true).
  { intros i Hi. apply HN, nth_In. lia. }
  assert (H1 : forall i, (i < S n)%nat ->
               nan_vertex (nth i (map (fun c => vadd c vec) c0) zero3) = true).
  { intros i Hi.
    assert (Hin : In (nth i (map (fun c => vadd c vec) c0) zero3)
                     (map (fun c => vadd c vec) c0)).
    { apply nth_In. rewrite length_map. lia. }
    apply in_map_iff in Hin. destruct Hin as [c [<- Hc]].
    apply HN in Hc. apply nan_vertex_eq in Hc. subst c. apply vadd_nan_l. }
  split.
  - apply forallb_forall. intros f Hf.
    apply in_map_iff in Hf. destruct Hf as [i [<- Hi]].
    apply in_seq in Hi.
    assert (Hm : (Nat.modulo (i + 1) (S n) < S n)%nat)
      by (apply Nat.mod_upper_bound; lia).
    cbn [forallb]. rewrite !H0, !H1 by lia. reflexivity.
  - cbn [seq map forallb].
    rewrite (nan_vertex_eq _ (H0 0%nat (Nat.lt_0_succ n))). reflexivity.
Qed.

Lemma frame_zero_axis (s0 s1 s2 : bool) :
  frame (S754_zero s0, S754_zero s1, S754_zero s2)
  = ((S754_nan, S754_nan, S754_nan), (S754_nan, S754_nan, S754_nan),
     (S754_nan, S754_nan, S754_nan)).
Proof. destruct s0, s1, s2; vm_compute; reflexivity. Qed.
End NaNPropagation.

(** A zero norm, from a zero axis or from squares that underflow, turns the
    whole frame into NaN. *)
Lemma frame_zero_norm (vec : vec64) (s : bool) :
  norm vec = S754_zero s -> nan_vertex (fst (fst (frame vec))) = true.
Proof.
  intros H. unfold frame, raw_x, unit_axis. rewrite H.
  destruct vec as [[a b] c].
  destruct a, b, c, s; vm_compute; reflexivity.
Qed.

Lemma norm_zero_axis (s0 s1 s2 : bool) :
  norm (S754_zero s0, S754_zero s1, S754_zero s2) = S754_zero false.
Proof. destruct s0, s1, s2; vm_compute; reflexivity. Qed.


(** C10, as stated, fails for a nonzero axis whose square underflows: for
    (2^-600, 0, 0) the dot product is 0, the norm is 0, and every vertex of
    the inlet-sized tube comes out as NaN, whatever cos and sin return. *)
Lemma tiny_axis_gives_nan :
  zero64 tiny_axis64 = false
  /\ norm tiny_axis64 = S754_zero false
  /\ forall cos64 sin64 : spec_float -> spec_float,
      exists faces,
        cyl_faces (TF:=b64_trig cos64 sin64)
                  inlet_base64 tiny_axis64 inlet_radius64 48 = Returned faces
        /\ forallb (forallb finite_vertex) faces = false.
Proof.
  split; [vm_compute; reflexivity|]. split; [vm_compute; reflexivity|].
  intros cos64 sin64.
  destruct (cyl_faces_nan cos64 sin64 inlet_base64 tiny_axis64 inlet_radius64 47)
    as (faces & Hf & _ & _ & Hfin).
  - vm_compute. reflexivity.
  - exists faces. split; assumption.
Qed.

(** C10, amended.  The axis is divided by its norm without a zero guard,
    and nothing is raised.  Whenever the computed norm is zero, for any
    base, radius and segment count n >= 1 and whatever cos and sin return,
    the function returns n faces and every coordinate of every vertex is
    NaN; the zero axis (zeros of either sign) has norm +0.  A nonzero axis
    is not enough in binary64, since its squares may underflow; in exact
    arithmetic a nonzero axis makes both divisors, the norm of the axis and
    the norm of the vector crossed from it, strictly positive. *)
Theorem zero_axis_gives_nan :
  (forall (cos64 sin64 : spec_float -> spec_float) (base vec : vec64)
          (r : spec_float) (n : nat) (s : bool),
      norm vec = S754_zero s ->
      exists faces,
        cyl_faces (TF:=b64_trig cos64 sin64) base vec r (S n) = Returned faces
        /\ List.length faces = S n
        /\ forallb (forallb nan_vertex) faces = true
        /\ forallb (forallb finite_vertex) faces = false)
  /\ (forall s0 s1 s2 : bool,
        norm (S754_zero s0, S754_zero s1, S754_zero s2) = S754_zero false)
  /\ (forall vec : Rvec,
        vec <> (0, 0, 0)%R -> (0 < norm vec)%R /\ (0 < norm (raw_x vec))%R).
Proof.
  split; [|split].
  - intros cos64 sin64 base vec r n s Hn.
    apply cyl_faces_nan. apply (frame_zero_norm vec s Hn).
  - exact norm_zero_axis.
  - intros vec Hv. split; [apply norm_pos, Hv|].
    destruct (raw_x_long vec Hv) as [_ H]. lra.
Qed.

Lemma zero_axis_gives_nan_witness :
  norm zero_axis64 = S754_zero false
  /\ (exists faces,
        cyl_faces (TF:=b64_trig (fun x => x) (fun x => x))
                  inlet_base64 zero_axis64 inlet_radius64 48 = Returned faces
        /\ forallb (forallb nan_vertex) faces = true)
  /\ up_axis <> (0, 0, 0)%R /\ (0 < norm up_axis)%R.
Proof.
  assert (Hn : norm zero_axis64 = S754_zero false) by (vm_compute; reflexivity).
  assert (H : up_axis <> (0, 0, 0)%R).
  { unfold up_axis. intros E. injection E as E. lra. }
  split; [exact Hn|]. split.
  - destruct (proj1 zero_axis_gives_nan (fun x => x) (fun x => x)
                inlet_base64 zero_axis64 inlet_radius64 47%nat false Hn)
      as (faces & Hf & _ & Hnan & _).
    exists faces. split; assumption.
  - split; [exact H|].
    exact (proj1 (proj2 (proj2 zero_axis_gives_nan) up_axis H)).
Defined.

(** With [n = 0] the broadcast fails before any face is built. *)
Lemma cyl_faces_no_segments (F : Type) (AF : Arith F) (TF : Trig F)
    (base vec : vec3 (F:=F)) (r : F) :
  cyl_faces base vec r 0 = Raised ValueError.
Proof. reflexivity. Qed.

Section PlateFaces.
Local Open Scope R_scope.
Variables mx th ly lz : R.

Lemma plate_faces_shape :
  exists f0 f1,
    plate_faces mx th ly lz = [f0; f1]
    /\ List.length f0 = 4%nat /\ List.length f1 = 4%nat
    /\ incl f0 (plate mx th ly lz) /\ incl f1 (plate mx th ly lz)
    /\ in_plane_z 0 f0 /\ in_plane_z lz f1.
Proof.
  do 2 eexists. split; [reflexivity|].
  split; [reflexivity|]. split; [reflexivity|].
  split; [|split; [|split]].
  - intros v Hv. cbn in Hv |- *. intuition.
  - intros v Hv. cbn in Hv |- *. intuition.
  - repeat constructor; cbn; lra.
  - repeat constructor.
Qed.

Lemma plate_faces_not_x_planes :
  th <> 0 ->
  forall f, In f (plate_faces mx th ly lz) ->
    ~ in_plane_x (mx - th / 2) f /\ ~ in_plane_x (mx + th / 2) f.
Proof.
  intros Hth f Hf. cbn in Hf.
  destruct Hf as [<-|[<-|[]]]; split; intros H;
    open_face;
    cbn in *; lra.
Qed.
End PlateFaces.

(** C2: what the code draws for the plate.  With the default parameters it
    emits two quadrilaterals over the eight corners, but they are the faces
    in the planes z = 0 and z = lz = 20; neither lies in the plane
    x = mesh_x - mesh_thk/2 or in the plane x = mesh_x + mesh_thk/2,
    because each mixes corners of both.  The same holds on the doubles. *)
Theorem plate_faces_are_z_faces :
  (exists f0 f1,
      preview_plate (params : Rparams) = [f0; f1]
      /\ List.length f0 = 4%nat /\ List.length f1 = 4%nat
      /\ in_plane_z 0 f0 /\ in_plane_z 20 f1
      /\ ~ in_plane_x (10 - (11 / 100) / 2) f0 /\ ~ in_plane_x (10 + (11 / 100) / 2) f0
      /\ ~ in_plane_x (10 - (11 / 100) / 2) f1 /\ ~ in_plane_x (10 + (11 / 100) / 2) f1)
  /\ (exists f0 f1,
      preview_plate params64 = [f0; f1]
      /\ in_plane_z64 (b64_of_Z 0) f0 = true
      /\ in_plane_z64 (b64_of_Z 20) f1 = true
      /\ in_plane_x64 (sub (mesh_x params64) (div (mesh_thk params64) (lit 2 1))) f0 = false
      /\ in_plane_x64 (add (mesh_x params64) (div (mesh_thk params64) (lit 2 1))) f0 = false
      /\ in_plane_x64 (sub (mesh_x params64) (div (mesh_thk params64) (lit 2 1))) f1 = false
      /\ in_plane_x64 (add (mesh_x params64) (div (mesh_thk params64) (lit 2 1))) f1 = false).
Proof.
  split.
  - do 2 eexists. split; [reflexivity|].
    split; [reflexivity|]. split; [reflexivity|].
    split; [repeat constructor; cbn; lra|].
    split; [repeat constructor; cbn; lra|].
    repeat split; intros H;
      open_face;
      cbn in *; lra.
  - do 2 eexists. split; [reflexivity|].
    repeat split; vm_compute; reflexivity.
Qed.

(** * The Poiseuille comparison *)

Section FloatOrder.
Lemma SFcompare_antisym (a b : spec_float) :
  SFcompare b a = option_map CompOpp (SFcompare a b).
Proof.
  destruct a as [sa|sa| |sa ma ea], b as [sb|sb| |sb mb eb]; cbn;
    try destruct sa; try destruct sb; try reflexivity;
    rewrite (Z.compare_antisym ea eb);
    destruct (ea ?= eb)%Z; cbn; try reflexivity;
    pose proof (Pos.compare_cont_antisym ma mb Eq) as H; cbn in H;
    rewrite <- H; destruct (Pos.compare_cont Eq ma mb); reflexivity.
Qed.

Lemma SFltb_asym (a b : spec_float) : SFltb a b = true -> SFltb b a = false.
Proof.
  unfold SFltb. rewrite (SFcompare_antisym a b).
  destruct (SFcompare a b) as [[]|]; cbn; congruence.
Qed.
End FloatOrder.

Section ParabolaFacts.
Local Open Scope R_scope.

Lemma u_analytic_parabola (c : R) (xs : list R) :
  u_analytic c xs = map (parabola c) xs.
Proof.
  unfold u_analytic. apply map_ext. intros x.
  unfold parabola, sq. cbn. field.
Qed.

Lemma parabola_le (c x : R) : 0 < c -> parabola c x <= c.
Proof. intros Hc. unfold parabola. pose proof (pow2_ge_0 (x / 5)). nra. Qed.

Lemma fold_Rmax_attained (c : R) (l : list R) :
  forall a, (forall y, In y (a :: l) -> y <= c) -> In c (a :: l) ->
            fold_left Rmax l a = c.
Proof.
  induction l as [|b l IH]; intros a Hle Hin.
  - cbn in *. destruct Hin as [->|[]]. reflexivity.
  - cbn [fold_left]. apply IH.
    + intros y [<-|Hy].
      * apply Rmax_lub; apply Hle; cbn; auto.
      * apply Hle. cbn. auto.
    + destruct Hin as [->|[->|Hin]].
      * left. apply Rmax_left. apply Hle. cbn. auto.
      * left. apply Rmax_right. apply Hle. cbn. auto.
      * right. exact Hin.
Qed.

Lemma combine_fst (A B : Type) (f : A -> B) (l : list A) :
  map fst (combine l (map f l)) = l.
Proof. induction l; cbn; congruence. Qed.

Lemma combine_snd (A B : Type) (f : A -> B) (l : list A) :
  map snd (combine l (map f l)) = map f l.
Proof. induction l; cbn; congruence. Qed.

Lemma sum_sq_ge (l : list R) : forall acc, acc <= fold_left Rplus (map sq l) acc.
Proof.
  induction l as [|a l IH]; intros acc; cbn [map fold_left]; [lra|].
  eapply Rle_trans; [|apply IH]. unfold sq. cbn. nra.
Qed.

Lemma sum_sq_member (c : R) (l : list R) :
  In c l -> forall acc, acc + c * c <= fold_left Rplus (map sq l) acc.
Proof.
  induction l as [|a l IH]; intros Hin acc; [destruct Hin|].
  cbn [map fold_left]. destruct Hin as [->|Hin].
  - apply sum_sq_ge.
  - eapply Rle_trans; [|apply (IH Hin)]. unfold sq. cbn. nra.
Qed.

Lemma sum_sq_self_sub (l : list R) :
  forall acc, fold_left Rplus (map sq (array_sub l l)) acc = acc.
Proof.
  unfold array_sub.
  induction l as [|a l IH]; intros acc; cbn [combine map fold_left]; [reflexivity|].
  rewrite IH. unfold sq. cbn. ring.
Qed.

Lemma norm_self_sub (l : list R) : norm_l2 (array_sub l l) = 0.
Proof.
  unfold norm_l2. cbn [fsqrt add Rarith]. rewrite sum_sq_self_sub.
  cbn. replace (0 / 1) with 0 by field. apply sqrt_0.
Qed.

Lemma norm_l2_pos (c : R) (l : list R) : 0 < c -> In c l -> 0 < norm_l2 l.
Proof.
  intros Hc Hin. unfold norm_l2. cbn [fsqrt add Rarith].
  apply sqrt_lt_R0. pose proof (sum_sq_member c l Hin (lit 0 1)) as H.
  cbn in H |- *. nra.
Qed.
End ParabolaFacts.

Section ExactRoundTrip.
Lemma sub_self (a : spec_float) : is_finite a = true -> sub a a = S754_zero false.
Proof.
  destruct a as [s|s| |s m e]; cbn; intros H; try discriminate H.
  - destruct s; reflexivity.
  - rewrite Z.sub_diag. reflexivity.
Qed.

Lemma sum_sq_self_sub64 (l : list spec_float) :
  forallb is_finite l = true ->
  fold_left add (map sq (array_sub l l)) (S754_zero false) = S754_zero false.
Proof.
  unfold array_sub.
  induction l as [|a l IH]; intros H; cbn [combine map fold_left]; [reflexivity|].
  cbn [forallb] in H. apply andb_prop in H. destruct H as [Ha Hl].
  cbn [fst snd]. rewrite (sub_self a Ha). apply IH, Hl.
Qed.

Lemma zero_over_positive (den : spec_float) :
  SFltb (S754_zero false) den = true -> div (S754_zero false) den = S754_zero false.
Proof.
  destruct den as [s|s| |s m e]; cbn; intros H; try discriminate H;
    destruct s; try discriminate H; reflexivity.
Qed.

Lemma round_trip64 (c : spec_float) (xs : list spec_float) :
  forallb is_finite (u_analytic c xs) = true ->
  SFltb (S754_zero false) (norm_l2 (u_analytic c xs)) = true ->
  relative_error c xs (u_analytic c xs) = S754_zero false.
Proof.
  intros Hfin Hden. unfold relative_error.
  assert (Hnum : norm_l2 (array_sub (u_analytic c xs) (u_analytic c xs)) = S754_zero false).
  { unfold norm_l2. change (lit 0 1) with (S754_zero false).
    rewrite (sum_sq_self_sub64 _ Hfin). reflexivity. }
  rewrite Hnum. apply zero_over_positive, Hden.
Qed.
End ExactRoundTrip.

(** The round trip in exact arithmetic: if the samples are the parabola
    [c * (1 - (x/5)^2)] over the probe abscissae, with [c > 0] attained at
    some sample, then [u_num.max()] is [c], the norm of [u_analytic] is
    positive, the relative error is exactly 0, and the step passes. *)
Lemma round_trip_real (c : R) (xs : list R) :
  (0 < c)%R ->
  In c (map (parabola c) xs) ->
  exists u0 us,
    map (parabola c) xs = u0 :: us
    /\ fold_left fmax us u0 = c
    /\ (0 < norm_l2 (u_analytic c xs))%R
    /\ relative_error c xs (map (parabola c) xs) = 0%R
    /\ main (combine xs (map (parabola c) xs))
       = ([PrintError 0%R; PrintPassed], Returned tt).
Proof.
  intros Hc Hin.
  destruct (map (parabola c) xs) as [|u0 us] eqn:Hu; [destruct Hin|].
  assert (Hmax : fold_left Rmax us u0 = c).
  { apply fold_Rmax_attained; [|exact Hin].
    intros y Hy. rewrite <- Hu in Hy. apply in_map_iff in Hy.
    destruct Hy as [x [<- _]]. apply parabola_le, Hc. }
  assert (Hden : (0 < norm_l2 (u_analytic c xs))%R).
  { rewrite u_analytic_parabola, Hu. apply (norm_l2_pos c (u0 :: us) Hc Hin). }
  assert (Herr : relative_error c xs (u0 :: us) = 0%R).
  { unfold relative_error. rewrite u_analytic_parabola, Hu, norm_self_sub.
    cbn [div Rarith]. unfold Rdiv. apply Rmult_0_l. }
  exists u0, us. split; [reflexivity|]. split; [exact Hmax|].
  split; [exact Hden|]. split; [exact Herr|].
  unfold main. rewrite <- Hu, combine_fst, combine_snd, Hu.
  cbn [fmax Rarith]. rewrite Hmax, Herr.
  unfold check_error, threshold. cbn [ltb lit Rarith]. unfold Rltb.
  destruct (Rlt_dec 0 (3 / 100)) as [_|H]; [reflexivity|]. exfalso; lra.
Qed.

(** C8, as stated, fails in binary64 when the square of the peak
    underflows: the table of the two rows [0 2^-600] and [5 0] is the
    parabola of peak c = 2^-600 > 0, attained at its first sample; the norm
    of [u_analytic] is 0, the error is 0/0 = NaN, and the assertion
    fails. *)
Lemma tiny_peak_gives_nan :
  List.length tiny_table = 2%nat
  /\ SFltb (S754_zero false) tiny_peak = true
  /\ In tiny_peak (map snd tiny_table)
  /\ map snd tiny_table = u_analytic tiny_peak (map fst tiny_table)
  /\ norm_l2 (u_analytic tiny_peak (map fst tiny_table)) = S754_zero false
  /\ relative_error tiny_peak (map fst tiny_table) (map snd tiny_table) = S754_nan
  /\ main tiny_table
     = ([PrintError S754_nan],
        Raised (AssertionError "Velocity deviates >3% from Poiseuille")).
Proof.
  split; [reflexivity|]. split; [reflexivity|].
  split; [left; reflexivity|].
  vm_compute. repeat split; reflexivity.
Qed.

(** C8, amended.  In exact arithmetic the statement holds as written.  In
    binary64 it holds when every sample of the scaled parabola is finite,
    its maximum is the scale [c], and the norm of [u_analytic] is positive
    (no underflow to zero): the relative error is then exactly +0 and the
    step passes. *)
Theorem scaled_parabola_zero_error :
  (forall (c : R) (xs : list R),
      (0 < c)%R ->
      In c (map (parabola c) xs) ->
      relative_error c xs (map (parabola c) xs) = 0%R
      /\ main (combine xs (map (parabola c) xs))
         = ([PrintError 0%R; PrintPassed], Returned tt))
  /\ (forall (c : spec_float) (xs : list spec_float)
             (u0 : spec_float) (us : list spec_float),
        u_analytic c xs = u0 :: us ->
        forallb is_finite (u0 :: us) = true ->
        fold_left fmax us u0 = c ->
        SFltb (S754_zero false) (norm_l2 (u_analytic c xs)) = true ->
        relative_error c xs (u0 :: us) = S754_zero false
        /\ main (combine xs (u0 :: us))
           = ([PrintError (S754_zero false); PrintPassed], Returned tt)).
Proof.
  split.
  - intros c xs Hc Hin.
    destruct (round_trip_real c xs Hc Hin) as (u0 & us & _ & _ & _ & He & Hp).
    split; assumption.
  - intros c xs u0 us Hu Hfin Hmax Hden.
    assert (Herr : relative_error c xs (u0 :: us) = S754_zero false).
    { rewrite <- Hu. apply round_trip64; [rewrite Hu; exact Hfin | exact Hden]. }
    split; [exact Herr|].
    assert (Hfst : map fst (combine xs (u0 :: us)) = xs).
    { rewrite <- Hu. apply combine_fst. }
    assert (Hsnd : map snd (combine xs (u0 :: us)) = u0 :: us).
    { rewrite <- Hu at 1. unfold u_analytic. rewrite combine_snd. exact Hu. }
    unfold main. rewrite Hfst, Hsnd, Hmax, Herr. reflexivity.
Qed.

Lemma scaled_parabola_zero_error_witness :
  ((0 < 2)%R /\ In 2%R (map (parabola 2) [0%R; 5%R])
   /\ relative_error 2%R [0%R; 5%R] (map (parabola 2) [0%R; 5%R]) = 0%R)
  /\ (u_analytic (b64_of_Z 1) (map fst passing_table) = map snd passing_table
      /\ main passing_table
         = ([PrintError (S754_zero false); PrintPassed], Returned tt)).
Proof.
  assert (Hc : (0 < 2)%R) by lra.
  assert (Hin : In 2%R (map (parabola 2) [0%R; 5%R])).
  { left. unfold parabola. field. }
  split.
  - split; [exact Hc|]. split; [exact Hin|].
    exact (proj1 (proj1 scaled_parabola_zero_error 2%R [0%R; 5%R] Hc Hin)).
  - assert (Hu : u_analytic (b64_of_Z 1) [b64_of_Z 0; b64_of_Z 5]
                 = [b64_of_Z 1; b64_of_Z 0]) by (vm_compute; reflexivity).
    split; [exact Hu|].
    refine (proj2 (proj2 scaled_parabola_zero_error (b64_of_Z 1)
                     [b64_of_Z 0; b64_of_Z 5] (b64_of_Z 1) [b64_of_Z 0]
                     Hu _ _ _)); vm_compute; reflexivity.
Defined.

(** C9.  On a non-empty table the comparison is one evaluation of the
    assertion on the computed error: if the error is above 0.03 the
    [AssertionError] is raised after the error is printed; if it is below
    0.03 the step prints the pass line and returns.  Nothing else decides
    the outcome. *)
Theorem assertion_decides_outcome :
  forall (d0 : spec_float * spec_float) (data : samples (F:=spec_float)),
    exists err : spec_float,
      err = relative_error (fold_left fmax (map snd data) (snd d0))
                           (map fst (d0 :: data)) (map snd (d0 :: data))
      /\ main (d0 :: data) = check_error err
      /\ (SFltb threshold err = true ->
          main (d0 :: data)
          = ([PrintError err],
             Raised (AssertionError "Velocity deviates >3% from Poiseuille")))
      /\ (SFltb err threshold = true ->
          main (d0 :: data) = ([PrintError err; PrintPassed], Returned tt)).
Proof.
  intros d0 data. eexists. split; [reflexivity|].
  split; [reflexivity|].
  unfold main. cbn [map]. unfold check_error. cbn [ltb b64].
  split; intros H.
  - rewrite (SFltb_asym _ _ H). reflexivity.
  - rewrite H. reflexivity.
Qed.

Lemma assertion_decides_outcome_witness :
  snd (main failing_table) = Raised (AssertionError "Velocity deviates >3% from Poiseuille")
  /\ snd (main passing_table) = Returned tt.
Proof.
  split.
  - destruct (assertion_decides_outcome (b64_of_Z 0, b64_of_Z 1) [(b64_of_Z 5, b64_of_Z 1)])
      as (err & He & _ & Hhi & _).
    unfold failing_table. rewrite Hhi; [reflexivity|].
    rewrite He. vm_compute. reflexivity.
  - destruct (assertion_decides_outcome (b64_of_Z 0, b64_of_Z 1) [(b64_of_Z 5, b64_of_Z 0)])
      as (err & He & _ & _ & Hlo).
    unfold passing_table. rewrite Hlo; [reflexivity|].
    rewrite He. vm_compute. reflexivity.
Defined.

(** A NaN error fails the assertion as well. *)
Lemma nan_error_raises :
  snd (check_error S754_nan) = Raised (AssertionError "Velocity deviates >3% from Poiseuille").
Proof. reflexivity. Qed.

(** An empty table stops at [u_num.max()]. *)
Lemma main_empty (F : Type) (AF : Arith F) :
  main (F:=F) [] = ([], Raised ValueError).
Proof. reflexivity. Qed.

(** * More on the preview *)

Section FaceStrip.
Context {F : Type} {AF : Arith F} {TF : Trig F}.
Variables (base vec : vec3 (F:=F)) (r : F).

Lemma ring_size (n : nat) : List.length (ring base vec r n) = n.
Proof.
  unfold ring. destruct (frame vec) as [[x y] z].
  unfold linspace. rewrite !length_map, length_seq. reflexivity.
Qed.

Lemma nth_translate (l : list (vec3 (F:=F))) (j : nat) :
  (j < List.length l)%nat ->
  nth j (map (fun c => vadd c vec) l) zero3 = vadd (nth j l zero3) vec.
Proof.
  intros Hj.
  rewrite (nth_indep _ zero3 (vadd zero3 vec)) by (rewrite length_map; exact Hj).
  apply (map_nth (fun c => vadd c vec)).
Qed.

Lemma cyl_faces_strip (n : nat) :
  cyl_faces base vec r (S n)
  = Returned (map (strip_face vec (ring base vec r (S n)) (S n)) (seq 0 (S n))).
Proof.
  unfold cyl_faces. f_equal. apply map_ext_in. intros i Hi.
  apply in_seq in Hi.
  assert (Hm : (Nat.modulo (i + 1) (S n) < S n)%nat)
    by (apply Nat.mod_upper_bound; lia).
  unfold strip_face.
  rewrite !nth_translate by (rewrite ring_size; lia). reflexivity.
Qed.

Lemma nth_strip (c0 : list (vec3 (F:=F))) (n i : nat) :
  (i < n)%nat ->
  nth i (map (strip_face vec c0 n) (seq 0 n)) [] = strip_face vec c0 n i.
Proof.
  intros Hi.
  rewrite (nth_indep _ [] (strip_face vec c0 n 0)) by (rewrite length_map, length_seq; exact Hi).
  rewrite (map_nth (strip_face vec c0 n)), seq_nth by exact Hi. reflexivity.
Qed.
End FaceStrip.

(** X1.  [cyl_faces] raises, a [ValueError], exactly when [n = 0].
    Otherwise it returns [n] faces over a ring of [n] points, and face [i]
    is the quadrilateral [c0[i], c0[i+1 mod n], c0[i+1 mod n] + vec,
    c0[i] + vec]: two ring points and their translates by the axis. *)
Theorem cyl_faces_shape :
  forall (F : Type) (AF : Arith F) (TF : Trig F)
         (base vec : vec3 (F:=F)) (r : F) (n : nat),
    match cyl_faces base vec r n with
    | Raised e => n = 0%nat /\ e = ValueError
    | Returned faces =>
        (0 < n)%nat
        /\ List.length faces = n
        /\ List.length (ring base vec r n) = n
        /\ forall i, (i < n)%nat ->
             nth i faces [] = strip_face vec (ring base vec r n) n i
    end.
Proof.
  intros F AF TF base vec r [|n]; [split; reflexivity|].
  rewrite cyl_faces_strip.
  split; [lia|]. split; [now rewrite length_map, length_seq|].
  split; [apply ring_size|].
  intros i Hi. apply nth_strip, Hi.
Qed.

(** X2.  The strip closes up: the second and third vertices of face [i]
    are the first and fourth vertices of face [i+1 mod n], so neighbouring
    faces share an edge and the last face joins the first. *)
Theorem cyl_faces_closed :
  forall (F : Type) (AF : Arith F) (TF : Trig F)
         (base vec : vec3 (F:=F)) (r : F) (n : nat),
    match cyl_faces base vec r n with
    | Raised _ => True
    | Returned faces =>
        forall i, (i < n)%nat ->
          exists a b c d b' c',
            nth i faces [] = [a; b; c; d]
            /\ nth (Nat.modulo (i + 1) n) faces [] = [b; b'; c'; c]
    end.
Proof.
  intros F AF TF base vec r [|n]; [exact I|].
  rewrite cyl_faces_strip. intros i Hi.
  assert (Hm : (Nat.modulo (i + 1) (S n) < S n)%nat)
    by (apply Nat.mod_upper_bound; lia).
  rewrite !nth_strip by assumption.
  unfold strip_face. do 6 eexists. split; reflexivity.
Qed.

Section RingGeometry.
Local Open Scope R_scope.
Variables (base vec : Rvec) (r : R).
Hypothesis Hvec : vec <> (0, 0, 0).

Lemma axis_from_unit : vec = vscale (norm vec) (unit_axis vec).
Proof.
  pose proof (norm_pos vec Hvec) as HN.
  unfold unit_axis. destruct vec as [[a b] c].
  unfold vscale, vdiv, vx, vy, vz; cbn [fst snd mul div Rarith].
  f_equal; [f_equal|]; field; lra.
Qed.

Lemma ring_point_on_circle (t : R) :
  let '(x, y, _) := frame vec in
  let v := vadd base (vscale r (vadd (vscale (cos t) x) (vscale (sin t) y))) in
  dot (vsub v base) vec = 0
  /\ dot (vsub v base) (vsub v base) = r * r.
Proof.
  pose proof (frame_orthonormal vec Hvec) as Ho.
  pose proof axis_from_unit as Hax.
  unfold frame in *. 
  set (z := unit_axis vec) in *.
  set (x := vdiv (raw_x vec) (norm (raw_x vec))) in *.
  set (y := cross z x) in *.
  destruct Ho as (Hxx & Hyy & Hzz & Hxy & Hxz & Hyz).
  pose proof (sin2_cos2 t) as Hsc. unfold Rsqr in Hsc.
  set (N := norm vec) in *. clearbody N x y z.
  rewrite Hax.
  destruct x as [[x0 x1] x2], y as [[y0 y1] y2], z as [[z0 z1] z2],
           base as [[b0 b1] b2].
  unfold dot, vsub, vadd, vscale, vx, vy, vz in *;
    cbn [fst snd mul add Rarith] in *.
  set (c := cos t) in *. set (s := sin t) in *. clearbody c s.
  split.
  - replace ((b0 + r * (c * x0 + s * y0) - b0) * (N * z0) +
             (b1 + r * (c * x1 + s * y1) - b1) * (N * z1) +
             (b2 + r * (c * x2 + s * y2) - b2) * (N * z2))
      with (N * r * (c * (x0 * z0 + x1 * z1 + x2 * z2)
                     + s * (y0 * z0 + y1 * z1 + y2 * z2))) by ring.
    rewrite Hxz, Hyz. ring.
  - replace ((b0 + r * (c * x0 + s * y0) - b0) * (b0 + r * (c * x0 + s * y0) - b0) +
             (b1 + r * (c * x1 + s * y1) - b1) * (b1 + r * (c * x1 + s * y1) - b1) +
             (b2 + r * (c * x2 + s * y2) - b2) * (b2 + r * (c * x2 + s * y2) - b2))
      with (r * r * (c * c * (x0 * x0 + x1 * x1 + x2 * x2)
                     + 2 * c * s * (x0 * y0 + x1 * y1 + x2 * y2)
                     + s * s * (y0 * y0 + y1 * y1 + y2 * y2))) by ring.
    rewrite Hxx, Hxy, Hyy.
    replace (r * r * (c * c * 1 + 2 * c * s * 0 + s * s * 1))
      with (r * r * (s * s + c * c)) by ring.
    rewrite Hsc. ring.
Qed.
End RingGeometry.

Section RimFacts.
Local Open Scope R_scope.

Lemma vsub_bottom (v base vec : Rvec) :
  vsub (vsub v base) (vscale 0 vec) = vsub v base.
Proof.
  destruct v as [[v0 v1] v2], base as [[b0 b1] b2], vec as [[a0 a1] a2].
  unfold vsub, vscale, vx, vy, vz; cbn [fst snd mul Rarith].
  f_equal; [f_equal|]; ring.
Qed.

Lemma vsub_top (v base vec : Rvec) :
  vsub (vsub (vadd v vec) base) (vscale 1 vec) = vsub v base.
Proof.
  destruct v as [[v0 v1] v2], base as [[b0 b1] b2], vec as [[a0 a1] a2].
  unfold vsub, vadd, vscale, vx, vy, vz; cbn [fst snd mul add Rarith].
  f_equal; [f_equal|]; ring.
Qed.

Lemma ring_on_circle (base vec : Rvec) (r : R) (n : nat) :
  vec <> (0, 0, 0) ->
  forall v, In v (ring base vec r n) ->
    dot (vsub v base) vec = 0 /\ dot (vsub v base) (vsub v base) = r * r.
Proof.
  intros Hv v Hin. unfold ring in Hin.
  pose proof (ring_point_on_circle base vec r Hv) as Hp.
  destruct (frame vec) as [[x y] z].
  apply in_map_iff in Hin. destruct Hin as [t [<- _]]. apply Hp.
Qed.

Lemma strip_on_rim (base vec : Rvec) (r : R) (c0 : list Rvec) (n i : nat) :
  (forall v, In v c0 ->
     dot (vsub v base) vec = 0 /\ dot (vsub v base) (vsub v base) = r * r) ->
  (i < n)%nat -> List.length c0 = n ->
  forall w, In w (strip_face vec c0 n i) -> on_rim base vec r w.
Proof.
  intros Hc Hi Hn w Hw.
  assert (Hm : (Nat.modulo (i + 1) n < n)%nat)
    by (apply Nat.mod_upper_bound; lia).
  assert (Ha : In (nth i c0 zero3) c0) by (apply nth_In; lia).
  assert (Hb : In (nth (Nat.modulo (i + 1) n) c0 zero3) c0) by (apply nth_In; lia).
  apply Hc in Ha. apply Hc in Hb.
  unfold strip_face in Hw. cbn [In] in Hw.
  destruct Hw as [<-|[<-|[<-|[<-|[]]]]].
  - exists 0. rewrite vsub_bottom. split; [left; reflexivity | exact Ha].
  - exists 0. rewrite vsub_bottom. split; [left; reflexivity | exact Hb].
  - exists 1. rewrite vsub_top. split; [right; reflexivity | exact Hb].
  - exists 1. rewrite vsub_top. split; [right; reflexivity | exact Ha].
Qed.
End RimFacts.

Section RingAngles.
Local Open Scope R_scope.
Variables (base vec : Rvec) (r : R).

Lemma linspace_turn (n i : nat) :
  (i < n)%nat ->
  nth i (linspace (lit 0 1) (lit 2 1 * fpi)%A n) 0 = turn n i.
Proof.
  intros Hi. unfold linspace.
  rewrite (nth_indep _ 0 ((fun k => (lit (Z.of_nat k) 1 * ((lit 2 1 * fpi - lit 0 1) / lit (Z.of_nat n) 1) + lit 0 1)%A) 0%nat))
    by (rewrite length_map, length_seq; exact Hi).
  rewrite (map_nth (fun k => (lit (Z.of_nat k) 1 * ((lit 2 1 * fpi - lit 0 1) / lit (Z.of_nat n) 1) + lit 0 1)%A)).
  rewrite seq_nth by exact Hi.
  cbn [lit add sub mul div fpi Rarith Rtrig]. rewrite <- !INR_IZR_INZ.
  unfold turn. cbn [Nat.add].
  assert (Hn : INR n <> 0) by (apply not_0_INR; lia).
  field. exact Hn.
Qed.

Lemma ring_nth (n i : nat) :
  (i < n)%nat ->
  nth i (ring base vec r n) zero3
  = circle_point base (fst (fst (frame vec))) (snd (fst (frame vec))) r (turn n i).
Proof.
  intros Hi. unfold ring.
  destruct (frame vec) as [[x y] z]. cbn [fst snd].
  set (f := fun th : R => vadd base (vscale r (vadd (vscale (fcos th) x) (vscale (fsin th) y)))).
  rewrite (nth_indep _ zero3 (f 0)) by (rewrite length_map; unfold linspace; rewrite length_map, length_seq; exact Hi).
  rewrite (map_nth f), linspace_turn by exact Hi.
  reflexivity.
Qed.

Lemma strip_prism (n i : nat) :
  (i < n)%nat ->
  strip_face vec (ring base vec r n) n i
  = prism_face base vec (fst (fst (frame vec))) (snd (fst (frame vec))) r n i.
Proof.
  intros Hi.
  assert (Hm : (Nat.modulo (i + 1) n < n)%nat)
    by (apply Nat.mod_upper_bound; lia).
  unfold strip_face, prism_face. rewrite !ring_nth by assumption. reflexivity.
Qed.

Hypothesis Hvec : vec <> (0, 0, 0).

Lemma frame_spans_rim :
  let x := fst (fst (frame vec)) in
  let y := snd (fst (frame vec)) in
  dot x x = 1 /\ dot y y = 1 /\ dot x y = 0 /\ dot x vec = 0 /\ dot y vec = 0.
Proof.
  pose proof (frame_orthonormal vec Hvec) as Ho.
  pose proof (axis_from_unit vec Hvec) as Hax.
  unfold frame in *. cbn [fst snd] in *.
  set (z := unit_axis vec) in *.
  set (x := vdiv (raw_x vec) (norm (raw_x vec))) in *.
  set (y := cross z x) in *.
  destruct Ho as (Hxx & Hyy & Hzz & Hxy & Hxz & Hyz).
  split; [exact Hxx|]. split; [exact Hyy|]. split; [exact Hxy|].
  set (N := norm vec) in *. clearbody N x y z. rewrite Hax.
  destruct x as [[x0 x1] x2], y as [[y0 y1] y2], z as [[z0 z1] z2].
  unfold dot, vscale, vx, vy, vz in *; cbn [fst snd mul add Rarith] in *.
  split.
  - replace (x0 * (N * z0) + x1 * (N * z1) + x2 * (N * z2))
      with (N * (x0 * z0 + x1 * z1 + x2 * z2)) by ring.
    rewrite Hxz. ring.
  - replace (y0 * (N * z0) + y1 * (N * z1) + y2 * (N * z2))
      with (N * (y0 * z0 + y1 * z1 + y2 * z2)) by ring.
    rewrite Hyz. ring.
Qed.

Lemma quad_rectangle (a b : Rvec) :
  dot (vsub a base) vec = 0 -> dot (vsub b base) vec = 0 ->
  rectangle [a; b; vadd b vec; vadd a vec].
Proof.
  clear Hvec. intros Ha Hb.
  destruct a as [[a0 a1] a2], b as [[b0 b1] b2],
           vec as [[v0 v1] v2], base as [[o0 o1] o2].
  unfold rectangle, parallelogram, vsub, vadd, dot, cross, vx, vy, vz in *;
    cbn [fst snd mul add sub Rarith] in *.
  split; [split; [f_equal; [f_equal|]; ring | ring]|].
  replace ((b0 - a0) * (a0 + v0 - a0) + (b1 - a1) * (a1 + v1 - a1)
           + (b2 - a2) * (a2 + v2 - a2))
    with (((b0 - o0) * v0 + (b1 - o1) * v1 + (b2 - o2) * v2)
          - ((a0 - o0) * v0 + (a1 - o1) * v1 + (a2 - o2) * v2)) by ring.
  rewrite Ha, Hb. ring.
Qed.

Lemma strip_rectangle (c0 : list Rvec) (n i : nat) :
  (forall v, In v c0 -> dot (vsub v base) vec = 0) ->
  (i < n)%nat -> List.length c0 = n ->
  rectangle (strip_face vec c0 n i).
Proof.
  intros Hc Hi Hn.
  assert (Hm : (Nat.modulo (i + 1) n < n)%nat)
    by (apply Nat.mod_upper_bound; lia).
  assert (Ha : In (nth i c0 zero3) c0) by (apply nth_In; lia).
  assert (Hb : In (nth (Nat.modulo (i + 1) n) c0 zero3) c0) by (apply nth_In; lia).
  apply quad_rectangle; apply Hc; assumption.
Qed.
End RingAngles.

(** X3.  In exact arithmetic, for a nonzero axis, every face is a planar
    rectangle: its opposite sides are equal as vectors, its four vertices
    have a vanishing triple product, and its side along the rim is
    perpendicular to its side along the axis. *)
Theorem cyl_faces_planar :
  forall (base vec : Rvec) (r : R) (n : nat),
    vec <> (0, 0, 0)%R ->
    match cyl_faces base vec r n with
    | Raised _ => n = 0%nat
    | Returned faces => Forall rectangle faces
    end.
Proof.
  intros base vec r [|n] Hv; [reflexivity|].
  rewrite cyl_faces_strip. apply Forall_forall. intros f Hf.
  apply in_map_iff in Hf. destruct Hf as [i [<- Hi]]. apply in_seq in Hi.
  apply (strip_rectangle base); [|lia|apply ring_size].
  intros v Hin. apply (ring_on_circle base vec r (S n) Hv v Hin).
Qed.

Lemma cyl_faces_planar_witness :
  up_axis <> (0, 0, 0)%R
  /\ match cyl_faces (4, 10, 2)%R up_axis 1%R 3 with
     | Raised _ => False
     | Returned faces => Forall rectangle faces
     end.
Proof.
  assert (H : up_axis <> (0, 0, 0)%R).
  { unfold up_axis. intros E. injection E as E. lra. }
  split; [exact H|].
  exact (cyl_faces_planar (4, 10, 2)%R up_axis 1%R 3 H).
Defined.

(** X4.  In exact arithmetic, for a nonzero axis, every vertex returned
    lies on a rim of the cylinder: after removing [base], and the axis
    vector for the top ring, what is left is perpendicular to the axis and
    has length [|r|]. *)
Theorem cyl_faces_on_cylinder :
  forall (base vec : Rvec) (r : R) (n : nat),
    vec <> (0, 0, 0)%R ->
    match cyl_faces base vec r n with
    | Raised _ => n = 0%nat
    | Returned faces =>
        forall f, In f faces -> forall w, In w f -> on_rim base vec r w
    end.
Proof.
  intros base vec r [|n] Hv; [reflexivity|].
  rewrite cyl_faces_strip. intros f Hf w Hw.
  apply in_map_iff in Hf. destruct Hf as [i [<- Hi]]. apply in_seq in Hi.
  apply (strip_on_rim base vec r (ring base vec r (S n)) (S n) i);
    [apply ring_on_circle, Hv | lia | apply ring_size | exact Hw].
Qed.

Lemma cyl_faces_on_cylinder_witness :
  up_axis <> (0, 0, 0)%R
  /\ match cyl_faces (4, 10, 2)%R up_axis 1%R 3 with
     | Raised _ => False
     | Returned faces =>
         forall f, In f faces -> forall w, In w f -> on_rim (4, 10, 2)%R up_axis 1%R w
     end.
Proof.
  assert (H : up_axis <> (0, 0, 0)%R).
  { unfold up_axis. intros E. injection E as E. lra. }
  split; [exact H|].
  exact (cyl_faces_on_cylinder (4, 10, 2)%R up_axis 1%R 3 H).
Defined.

(** X5.  The preview draws the tubes of the script.  In exact arithmetic,
    for a nonzero tube length and outlet depth, the inlet (outlet) preview
    is the prism over a regular 48-gon inscribed in the cylinder that the
    script creates under handle 2 (handle 3): with [b], [a] and [rho] the
    base point, axis vector and radius of that cylinder, there are two
    perpendicular unit vectors [x] and [y], both perpendicular to [a], such
    that face [i] runs from the rim point at angle [2 pi i / 48] to the one
    at angle [2 pi (i+1 mod 48) / 48], up by [a], and back.  All vertices
    lie on the two rims of the cylinder. *)
Theorem tubes_match_script :
  forall p : Rparams,
    tube_len p <> 0%R -> out_depth p <> 0%R ->
    (exists b a rho faces x y,
        cylinder_of 2 (geo_template p) = Some (b, a, rho)
        /\ inlet_tube p = Returned faces
        /\ List.length faces = 48%nat
        /\ (dot x x = 1 /\ dot y y = 1 /\ dot x y = 0
            /\ dot x a = 0 /\ dot y a = 0)%R
        /\ (forall i, (i < 48)%nat ->
              nth i faces [] = prism_face b a x y rho 48 i)
        /\ forall f, In f faces -> forall w, In w f -> on_rim b a rho w)
    /\ (exists b a rho faces x y,
        cylinder_of 3 (geo_template p) = Some (b, a, rho)
        /\ outlet_tube p = Returned faces
        /\ List.length faces = 48%nat
        /\ (dot x x = 1 /\ dot y y = 1 /\ dot x y = 0
            /\ dot x a = 0 /\ dot y a = 0)%R
        /\ (forall i, (i < 48)%nat ->
              nth i faces [] = prism_face b a x y rho 48 i)
        /\ forall f, In f faces -> forall w, In w f -> on_rim b a rho w).
Proof.
  intros p Hl Hd.
  assert (Hin : (lit 0 1, lit 0 1, tube_len p) <> (0, 0, 0)%R)
    by (intros E; apply Hl; congruence).
  assert (Hout : (lit 0 1, lit 0 1, neg (out_depth p)) <> (0, 0, 0)%R).
  { intros E. assert (Hn : neg (out_depth p) = 0%R) by congruence.
    cbn in Hn. lra. }
  split.
  - unfold inlet_tube. rewrite cyl_faces_strip.
    do 3 eexists. eexists. 
    exists (fst (fst (frame (lit 0 1, lit 0 1, tube_len p)))),
           (snd (fst (frame (lit 0 1, lit 0 1, tube_len p)))).
    split; [reflexivity|]. split; [reflexivity|].
    split; [now rewrite length_map, length_seq|].
    split; [apply (frame_spans_rim _ Hin)|].
    split.
    + intros i Hi. rewrite nth_strip by exact Hi. apply strip_prism, Hi.
    + intros f Hf w Hw.
      apply in_map_iff in Hf. destruct Hf as [i [<- Hi]]. apply in_seq in Hi.
      eapply strip_on_rim;
        [apply ring_on_circle, Hin | | apply ring_size | exact Hw]. lia.
  - unfold outlet_tube. rewrite cyl_faces_strip.
    do 3 eexists. eexists. 
    exists (fst (fst (frame (lit 0 1, lit 0 1, neg (out_depth p))))),
           (snd (fst (frame (lit 0 1, lit 0 1, neg (out_depth p))))).
    split; [reflexivity|]. split; [reflexivity|].
    split; [now rewrite length_map, length_seq|].
    split; [apply (frame_spans_rim _ Hout)|].
    split.
    + intros i Hi. rewrite nth_strip by exact Hi. apply strip_prism, Hi.
    + intros f Hf w Hw.
      apply in_map_iff in Hf. destruct Hf as [i [<- Hi]]. apply in_seq in Hi.
      eapply strip_on_rim;
        [apply ring_on_circle, Hout | | apply ring_size | exact Hw]. lia.
Qed.

Lemma tubes_match_script_witness :
  tube_len (params : Rparams) <> 0%R /\ out_depth (params : Rparams) <> 0%R
  /\ exists b a rho, cylinder_of 2 (geo_template (params : Rparams)) = Some (b, a, rho).
Proof.
  assert (Hl : tube_len (params : Rparams) <> 0%R) by (cbn; lra).
  assert (Hd : out_depth (params : Rparams) <> 0%R) by (cbn; lra).
  split; [exact Hl|]. split; [exact Hd|].
  destruct (proj1 (tubes_match_script params Hl Hd))
    as (b & a & rho & faces & x & y & Hc & _).
  exists b, a, rho. exact Hc.
Defined.

Section Corners.
Local Open Scope R_scope.

Lemma triple_eq (a b c a' b' c' : R) :
  a = a' -> b = b' -> c = c' -> (a, b, c) = (a', b', c').
Proof. intros -> -> ->. reflexivity. Qed.
End Corners.

(** X6.  The eight corners the preview builds for the plate are, in exact
    arithmetic, the eight corners of the box the script creates under
    handle 4: its origin plus none, some or all of its three extents. *)
Theorem plate_corners_match_box :
  forall p : Rparams,
    exists o e,
      box_of 4 (geo_template p) = Some (o, e)
      /\ List.length (plate (mesh_x p) (mesh_thk p) (ly p) (lz p)) = 8%nat
      /\ (forall i j k : bool,
            In (vadd o (corner (vx e) (vy e) (vz e) i j k))
               (plate (mesh_x p) (mesh_thk p) (ly p) (lz p)))
      /\ (forall c, In c (plate (mesh_x p) (mesh_thk p) (ly p) (lz p)) ->
            exists i j k : bool, c = vadd o (corner (vx e) (vy e) (vz e) i j k)).
Proof.
  intros p. do 2 eexists. split; [reflexivity|]. split; [reflexivity|].
  split.
  - intros i j k. unfold plate, vadd, corner, vx, vy, vz.
    destruct i, j, k; cbn [In];
      repeat match goal with
             | |- _ \/ _ => (left; apply triple_eq; cbn; lra) || right
             end.
  - intros c Hc. unfold plate in Hc. cbn [In] in Hc.
    destruct Hc as [<-|[<-|[<-|[<-|[<-|[<-|[<-|[<-|[]]]]]]]]];
      [ exists false, false, false | exists true, false, false
      | exists true, true, false | exists false, true, false
      | exists false, false, true | exists true, false, true
      | exists true, true, true | exists false, true, true ];
      apply triple_eq; cbn; lra.
Qed.

(** X7.  The wireframe is the edge skeleton of the block from the origin
    to (lx, ly, lz): its six polylines make twelve segments; every pair of
    corners that differ in exactly one coordinate is joined by one of them;
    and every segment joins such a pair. *)
Theorem wireframe_edges :
  forall (F : Type) (AF : Arith F) (p : ChamberParameters (F:=F)),
    let segs := flat_map segments (wireframe p) in
    let c := corner (lx p) (ly p) (lz p) in
    List.length (wireframe p) = 6%nat
    /\ List.length segs = 12%nat
    /\ (forall i j k i' j' k' : bool,
          one_bit_apart i j k i' j' k' = true ->
          In (c i j k, c i' j' k') segs \/ In (c i' j' k', c i j k) segs)
    /\ (forall s, In s segs ->
          exists i j k i' j' k' : bool,
            one_bit_apart i j k i' j' k' = true
            /\ s = (c i j k, c i' j' k')).
Proof.
  intros F AF p segs c.
  split; [reflexivity|]. split; [reflexivity|]. split.
  - intros i j k i' j' k' H.
    destruct i, j, k, i', j', k'; try discriminate H; clear H;
      subst segs c; unfold corner; cbn;
      first [ left; repeat (first [left; reflexivity | right]); fail
            | right; repeat (first [left; reflexivity | right]); fail ].
  - intros s Hs. subst segs c. cbn in Hs.
    repeat (destruct Hs as [<-|Hs];
            [ (exists true + exists false); (exists true + exists false);
              (exists true + exists false); (exists true + exists false);
              (exists true + exists false); (exists true + exists false);
              solve [split; reflexivity] | ]).
    destruct Hs.
Qed.

(** * More on the boxes *)

Section BoxFacts.
Local Open Scope R_scope.

Lemma region_boxes (p : Rparams) :
  exists bi bo bm,
    region_box "inlet" (classify p) = Some bi
    /\ region_box "outlet" (classify p) = Some bo
    /\ region_box "mesh" (classify p) = Some bm
    /\ box_values bi = ((39 / 10, 99 / 10, 20 / 1), (41 / 10, 101 / 10, 201 / 10))
    /\ box_values bo = ((259 / 10, 99 / 10, 179 / 10), (261 / 10, 101 / 10, 201 / 10))
    /\ box_values bm = ((mesh_x p - 6 / 100, -1 / 10, -1 / 10),
                        (mesh_x p + 6 / 100, ly p + 1 / 10, lz p + 1 / 10)).
Proof. do 3 eexists. repeat split; reflexivity. Qed.
End BoxFacts.

(** X8.  The inlet and outlet boxes never share a point.  The mesh box
    shares a point with the inlet box exactly when
    3.84 <= mesh_x <= 4.16, ly >= 9.8 and lz >= 19.9, and with the outlet
    box exactly when 25.84 <= mesh_x <= 26.16, ly >= 9.8 and lz >= 17.8;
    outside these ranges the order of the regions decides nothing. *)
Theorem region_boxes_overlap :
  forall p : Rparams,
    exists bi bo bm,
      region_box "inlet" (classify p) = Some bi
      /\ region_box "outlet" (classify p) = Some bo
      /\ region_box "mesh" (classify p) = Some bm
      /\ boxes_disjoint bi bo
      /\ (boxes_disjoint bm bi <->
          ~ (384 / 100 <= mesh_x p <= 416 / 100
             /\ 98 / 10 <= ly p /\ 199 / 10 <= lz p)%R)
      /\ (boxes_disjoint bm bo <->
          ~ (2584 / 100 <= mesh_x p <= 2616 / 100
             /\ 98 / 10 <= ly p /\ 178 / 10 <= lz p)%R).
Proof.
  intros p.
  destruct (region_boxes p) as (bi & bo & bm & Hi & Ho & Hm & Vi & Vo & Vm).
  exists bi, bo, bm. split; [exact Hi|]. split; [exact Ho|]. split; [exact Hm|].
  unfold boxes_disjoint, box_contains. rewrite Vi, Vo, Vm.
  split; [|split; split].
  - intros [[x y] z] [H1 H2]. lra.
  - intros Hd Hc. 
    apply (Hd (Rmax (mesh_x p - 6 / 100) (39 / 10), 99 / 10, 20)%R).
    unfold Rmax. destruct (Rle_dec _ _); lra.
  - intros Hn [[x y] z] [H1 H2]. apply Hn. lra.
  - intros Hd Hc.
    apply (Hd (Rmax (mesh_x p - 6 / 100) (259 / 10), 99 / 10, 179 / 10)%R).
    unfold Rmax. destruct (Rle_dec _ _); lra.
  - intros Hn [[x y] z] [H1 H2]. apply Hn. lra.
Qed.

(** X9.  The fixed inlet and outlet boxes fit one tube only.  The centre
    of the far end of the inlet cylinder, base plus axis, lies in the inlet
    box exactly when 18 <= tube_len <= 18.1; both end centres of the outlet
    cylinder lie in the outlet box exactly when 17.9 <= lz <= 20.1 and
    17.9 <= lz - out_depth <= 20.1. *)
Theorem tube_ends_in_boxes :
  forall p : Rparams,
    exists bi bo b2 a2 r2 b3 a3 r3,
      region_box "inlet" (classify p) = Some bi
      /\ region_box "outlet" (classify p) = Some bo
      /\ cylinder_of 2 (geo_template p) = Some (b2, a2, r2)
      /\ cylinder_of 3 (geo_template p) = Some (b3, a3, r3)
      /\ (box_contains bi (vadd b2 a2) <-> (18 <= tube_len p <= 181 / 10)%R)
      /\ (box_contains bo b3 /\ box_contains bo (vadd b3 a3) <->
          (179 / 10 <= lz p <= 201 / 10
           /\ 179 / 10 <= lz p - out_depth p <= 201 / 10)%R).
Proof.
  intros p.
  destruct (region_boxes p) as (bi & bo & bm & Hi & Ho & Hm & Vi & Vo & Vm).
  exists bi, bo. do 6 eexists.
  split; [exact Hi|]. split; [exact Ho|].
  split; [reflexivity|]. split; [reflexivity|].
  unfold box_contains. rewrite Vi, Vo. cbn. split; split; lra.
Qed.

(** X10.  The inlet and outlet boxes are 0.2 wide whatever the tubes are.
    For a tube of nonzero length whose radius squared exceeds 0.02, no
    point of a rim of the script's inlet (outlet) cylinder lies in the
    inlet (outlet) box. *)
Theorem rims_miss_boxes :
  forall p : Rparams,
    tube_len p <> 0%R -> out_depth p <> 0%R ->
    (2 / 100 < (tube_id p / 2) * (tube_id p / 2))%R ->
    (2 / 100 < (out_id p / 2) * (out_id p / 2))%R ->
    exists bi bo b2 a2 r2 b3 a3 r3,
      region_box "inlet" (classify p) = Some bi
      /\ region_box "outlet" (classify p) = Some bo
      /\ cylinder_of 2 (geo_template p) = Some (b2, a2, r2)
      /\ cylinder_of 3 (geo_template p) = Some (b3, a3, r3)
      /\ (forall w, on_rim b2 a2 r2 w -> ~ box_contains bi w)
      /\ (forall w, on_rim b3 a3 r3 w -> ~ box_contains bo w).
Proof.
  intros p Hl Hd Hr2 Hr3.
  destruct (region_boxes p) as (bi & bo & bm & Hi & Ho & Hm & Vi & Vo & Vm).
  exists bi, bo. do 6 eexists.
  split; [exact Hi|]. split; [exact Ho|].
  split; [reflexivity|]. split; [reflexivity|].
  unfold box_contains. rewrite Vi, Vo.
  split; intros [[x y] z] (s & Hs & Hperp & Hlen) Hin;
    unfold dot, vsub, vscale, vx, vy, vz in Hperp, Hlen;
    cbn in Hperp, Hlen.
  - assert (Hz : (z - 2 / 1 - s * tube_len p = 0)%R) by nra.
    rewrite Hz in Hlen. nra.
  - assert (Hz : (z - lz p - s * - out_depth p = 0)%R) by nra.
    rewrite Hz in Hlen. nra.
Qed.

Lemma rims_miss_boxes_witness :
  tube_len (params : Rparams) <> 0%R
  /\ (2 / 100 < (tube_id (params : Rparams) / 2) * (tube_id (params : Rparams) / 2))%R
  /\ exists bi, region_box "inlet" (classify (params : Rparams)) = Some bi.
Proof.
  assert (Hl : tube_len (params : Rparams) <> 0%R) by (cbn; lra).
  assert (Hd : out_depth (params : Rparams) <> 0%R) by (cbn; lra).
  assert (H2 : (2 / 100 < (tube_id (params : Rparams) / 2)
                          * (tube_id (params : Rparams) / 2))%R) by (cbn; lra).
  assert (H3 : (2 / 100 < (out_id (params : Rparams) / 2)
                          * (out_id (params : Rparams) / 2))%R) by (cbn; lra).
  split; [exact Hl|]. split; [exact H2|].
  destruct (rims_miss_boxes params Hl Hd H2 H3)
    as (bi & bo & b2 & a2 & r2 & b3 & a3 & r3 & Hbi & _).
  exists bi. exact Hbi.
Defined.

(** X20.  The mesh box contains all eight corners of the preview's plate
    exactly when the thickness is at most 0.12 in absolute value and
    ly and lz are at least -0.1. *)
Theorem mesh_box_holds_plate :
  forall p : Rparams,
    exists bm,
      region_box "mesh" (classify p) = Some bm
      /\ ((forall c, In c (plate (mesh_x p) (mesh_thk p) (ly p) (lz p)) ->
             box_contains bm c)
          <-> (- (12 / 100) <= mesh_thk p <= 12 / 100
               /\ - (1 / 10) <= ly p /\ - (1 / 10) <= lz p)%R).
Proof.
  intros p.
  destruct (region_boxes p) as (bi & bo & bm & Hi & Ho & Hm & Vi & Vo & Vm).
  exists bm. split; [exact Hm|].
  unfold box_contains. rewrite Vm. unfold plate. split.
  - intros H.
    pose proof (H _ (or_introl eq_refl)) as H0.
    pose proof (H _ (or_intror (or_introl eq_refl))) as H1.
    pose proof (H _ (or_intror (or_intror (or_introl eq_refl)))) as H2.
    pose proof (H _ (or_intror (or_intror (or_intror (or_intror (or_introl eq_refl)))))) as H4.
    cbn in H0, H1, H2, H4. lra.
  - intros Hc c Hin. cbn [In] in Hin.
    destruct Hin as [<-|[<-|[<-|[<-|[<-|[<-|[<-|[<-|[]]]]]]]]]; cbn; lra.
Qed.

(** * More on the comparison *)

Section ScaleInvariance.
Local Open Scope R_scope.

Lemma fold_Rmax_scale (k : R) (l : list R) :
  0 <= k -> forall a,
    fold_left Rmax (map (Rmult k) l) (k * a) = k * fold_left Rmax l a.
Proof.
  intros Hk. induction l as [|b l IH]; intros a; cbn [map fold_left]; [reflexivity|].
  rewrite RmaxRmult by exact Hk. apply IH.
Qed.

Lemma u_analytic_scale (k U : R) (x : list R) :
  u_analytic (k * U) x = map (Rmult k) (u_analytic U x).
Proof.
  unfold u_analytic. rewrite map_map. apply map_ext. intros a. cbn. ring.
Qed.

Lemma array_sub_scale (k : R) (a b : list R) :
  array_sub (map (Rmult k) a) (map (Rmult k) b) = map (Rmult k) (array_sub a b).
Proof.
  unfold array_sub. revert b.
  induction a as [|a0 a IH]; intros [|b0 b]; cbn [map combine]; try reflexivity.
  rewrite IH. cbn. f_equal. ring.
Qed.

Lemma sum_sq_scale (k : R) (l : list R) :
  forall acc,
    fold_left Rplus (map sq (map (Rmult k) l)) (k * k * acc)
    = k * k * fold_left Rplus (map sq l) acc.
Proof.
  induction l as [|a l IH]; intros acc; cbn [map fold_left]; [reflexivity|].
  replace (k * k * acc + sq (k * a)) with (k * k * (acc + sq a))
    by (unfold sq; cbn; ring).
  apply IH.
Qed.

Lemma norm_l2_scale (k : R) (l : list R) :
  0 <= k -> norm_l2 (map (Rmult k) l) = k * norm_l2 l.
Proof.
  intros Hk. unfold norm_l2. cbn [fsqrt add lit Rarith].
  replace (0 / 1) with (k * k * (0 / 1)) at 1 by field.
  rewrite sum_sq_scale.
  rewrite sqrt_mult_alt by nra.
  rewrite sqrt_square by exact Hk. reflexivity.
Qed.

Lemma sum_sq_zero (l : list R) :
  fold_left Rplus (map sq l) 0 = 0 -> Forall (fun a => a = 0) l.
Proof.
  induction l as [|a l IH]; intros H; [constructor|].
  cbn [map fold_left] in H.
  pose proof (sum_sq_ge l (0 + sq a)) as Hge.
  assert (Ha : sq a = 0) by (unfold sq in *; cbn in *; nra).
  constructor.
  - unfold sq in Ha. cbn in Ha. nra.
  - apply IH. rewrite Ha in H. rewrite Rplus_0_l in H. exact H.
Qed.

Lemma array_sub_zero (a b : list R) :
  List.length a = List.length b ->
  Forall (fun d => d = 0) (array_sub a b) -> a = b.
Proof.
  unfold array_sub. revert b.
  induction a as [|a0 a IH]; intros [|b0 b] Hlen H; try discriminate Hlen;
    [reflexivity|].
  cbn [combine map] in H. inversion_clear H as [|? ? H0 Hr].
  cbn in H0. f_equal; [lra|]. apply IH; [now injection Hlen|exact Hr].
Qed.
End ScaleInvariance.

(** X11.  In exact arithmetic the check does not depend on the velocity
    scale: multiplying every sampled velocity by the same [k > 0] leaves
    the relative error, and with it the whole outcome, unchanged, as long as
    the norm of [u_analytic] is not zero. *)
Theorem check_scale_invariant :
  forall (k : R) (d0 : R * R) (rest : samples (F:=R)),
    (0 < k)%R ->
    (0 < norm_l2 (u_analytic (peak d0 rest) (map fst (d0 :: rest))))%R ->
    main (scale_table k (d0 :: rest)) = main (d0 :: rest).
Proof.
  intros k d0 rest Hk Hden.
  assert (Hx : map fst (scale_table k (d0 :: rest)) = map fst (d0 :: rest)).
  { unfold scale_table. rewrite map_map. reflexivity. }
  assert (Hu : map snd (scale_table k (d0 :: rest))
               = map (Rmult k) (map snd (d0 :: rest))).
  { unfold scale_table. rewrite !map_map. reflexivity. }
  unfold main. rewrite Hx, Hu. cbn [map].
  change (@fmax R Rarith) with Rmax.
  rewrite fold_Rmax_scale by lra.
  f_equal. unfold relative_error.
  rewrite u_analytic_scale.
  change (k * snd d0 :: map (Rmult k) (map snd rest))%R
    with (map (Rmult k) (snd d0 :: map snd rest)).
  rewrite array_sub_scale, !norm_l2_scale by lra.
  unfold peak in Hden. cbn [map] in Hden.
  change (@fmax R Rarith) with Rmax in Hden.
  cbn [div Rarith]. field. lra.
Qed.

Lemma check_scale_invariant_witness :
  main (scale_table 3 [(0, 1); (5, 1)]%R) = main [(0, 1); (5, 1)]%R.
Proof.
  apply check_scale_invariant; [lra|].
  apply (norm_l2_pos 1%R); [lra|].
  left. unfold peak. cbn. rewrite Rmax_left by lra. field.
Defined.

(** X12.  In exact arithmetic, when the norm of [u_analytic] is not zero,
    the relative error is 0 only for the profile itself: exactly when every
    sampled velocity equals [u_max * (1 - (x/5)^2)]. *)
Theorem zero_error_iff_profile :
  forall (d0 : R * R) (rest : samples (F:=R)),
    (0 < norm_l2 (u_analytic (peak d0 rest) (map fst (d0 :: rest))))%R ->
    (relative_error (peak d0 rest) (map fst (d0 :: rest)) (map snd (d0 :: rest)) = 0%R
     <-> map snd (d0 :: rest) = u_analytic (peak d0 rest) (map fst (d0 :: rest))).
Proof.
  intros d0 rest Hden.
  set (U := peak d0 rest) in *. set (x := map fst (d0 :: rest)) in *.
  set (u := map snd (d0 :: rest)).
  unfold relative_error. cbn [div Rarith]. split.
  - intros H.
    assert (Hnum : norm_l2 (array_sub u (u_analytic U x)) = 0%R).
    { apply Rmult_integral in H. destruct H as [H|H]; [exact H|].
      exfalso. apply Rinv_neq_0_compat in H; [exact H|lra]. }
    unfold norm_l2 in Hnum. cbn [fsqrt add lit Rarith] in Hnum.
    replace (0 / 1)%R with 0%R in Hnum by field.
    apply sqrt_eq_0 in Hnum.
    + apply array_sub_zero; [|apply sum_sq_zero, Hnum].
      unfold u, x, u_analytic. rewrite !length_map. reflexivity.
    + pose proof (sum_sq_ge (array_sub u (u_analytic U x)) 0%R). lra.
  - intros ->. rewrite norm_self_sub. unfold Rdiv. apply Rmult_0_l.
Qed.

Lemma zero_error_iff_profile_witness :
  relative_error (peak (0, 1)%R [(5, 0)%R]) [0; 5]%R [1; 0]%R = 0%R.
Proof.
  assert (Hp : peak (0, 1)%R [(5, 0)%R] = 1%R).
  { unfold peak. cbn. apply Rmax_left. lra. }
  apply (proj2 (zero_error_iff_profile (0, 1)%R [(5, 0)%R]
                  ltac:(rewrite Hp; apply (norm_l2_pos 1%R); [lra|];
                        left; cbn; field))).
  rewrite Hp. cbn. f_equal; [field|f_equal; field].
Defined.

Section NaNTable.
Implicit Types a b x : spec_float.

Lemma sub_nan_r a : sub a S754_nan = S754_nan.
Proof. destruct a; reflexivity. Qed.

Lemma div_nan_r a : div a S754_nan = S754_nan.
Proof. destruct a; reflexivity. Qed.

Lemma max_nan_r a : fmax a S754_nan = S754_nan.
Proof. destruct a; reflexivity. Qed.

Lemma fold_max_nan_acc (l : list spec_float) :
  fold_left fmax l S754_nan = S754_nan.
Proof. induction l as [|b l IH]; [reflexivity|]. cbn [fold_left]. exact IH. Qed.

Lemma fold_max_nan (l : list spec_float) :
  forall a, In S754_nan (a :: l) -> fold_left fmax l a = S754_nan.
Proof.
  induction l as [|b l IH]; intros a Hin.
  - destruct Hin as [->|[]]. reflexivity.
  - cbn [fold_left]. destruct Hin as [->|[->|Hin]].
    + apply fold_max_nan_acc.
    + rewrite max_nan_r. apply fold_max_nan_acc.
    + apply IH. right. exact Hin.
Qed.

Lemma fold_add_nan_acc (l : list spec_float) :
  fold_left add l S754_nan = S754_nan.
Proof. induction l as [|b l IH]; [reflexivity|]. cbn [fold_left]. exact IH. Qed.

Lemma fold_add_nan (l : list spec_float) :
  In S754_nan l -> forall acc, fold_left add l acc = S754_nan.
Proof.
  induction l as [|b l IH]; intros Hin acc; [destruct Hin|].
  cbn [fold_left]. destruct Hin as [->|Hin].
  - rewrite add_nan_r. apply fold_add_nan_acc.
  - apply IH, Hin.
Qed.

Lemma norm_l2_nan (l : list spec_float) :
  In S754_nan l -> norm_l2 l = S754_nan.
Proof.
  intros Hin. unfold norm_l2.
  rewrite fold_add_nan; [reflexivity|].
  apply in_map_iff. exists S754_nan. split; [reflexivity|exact Hin].
Qed.

Lemma is_nan_eq x : is_nan x = true -> x = S754_nan.
Proof. destruct x; cbn; intros H; try discriminate H; reflexivity. Qed.

(** A NaN abscissa or a NaN peak puts a NaN into [u_analytic]. *)
Lemma u_analytic_nan_abscissa (U : spec_float) (xs : list spec_float) :
  In S754_nan xs -> In S754_nan (u_analytic U xs).
Proof.
  intros Hin. unfold u_analytic. apply in_map_iff.
  exists S754_nan. split; [|exact Hin].
  unfold sq. change (div S754_nan (lit 5 1)) with S754_nan.
  change (mul S754_nan S754_nan) with S754_nan.
  rewrite sub_nan_r. apply mul_nan_r.
Qed.

Lemma u_analytic_nan_peak (x0 : spec_float) (xs : list spec_float) :
  In S754_nan (u_analytic S754_nan (x0 :: xs)).
Proof. left. reflexivity. Qed.
End NaNTable.

(** X13.  A NaN anywhere in the table, abscissa or velocity, fails the
    check: the error comes out as NaN and the assertion raises. *)
Theorem nan_row_fails :
  forall data : samples (F:=spec_float),
    existsb nan_row data = true ->
    main data = ([PrintError S754_nan], Raised (AssertionError assertion_message)).
Proof.
  intros data H.
  apply existsb_exists in H. destruct H as [[xj uj] [Hin Hnan]].
  destruct data as [|d0 rest]; [destruct Hin|].
  unfold main. cbn [map].
  assert (Hden : norm_l2 (u_analytic (fold_left fmax (map snd rest) (snd d0))
                                     (fst d0 :: map fst rest)) = S754_nan).
  { apply norm_l2_nan.
    unfold nan_row in Hnan. cbn [fst snd] in Hnan.
    apply orb_prop in Hnan. destruct Hnan as [Hx|Hu].
    - apply is_nan_eq in Hx. subst xj.
      apply u_analytic_nan_abscissa.
      change (fst d0 :: map fst rest) with (map fst (d0 :: rest)).
      apply in_map_iff. exists (S754_nan, uj). split; [reflexivity|exact Hin].
    - apply is_nan_eq in Hu. subst uj.
      rewrite fold_max_nan; [apply u_analytic_nan_peak|].
      change (snd d0 :: map snd rest) with (map snd (d0 :: rest)).
      apply in_map_iff. exists (xj, S754_nan). split; [reflexivity|exact Hin]. }
  unfold relative_error. rewrite Hden, div_nan_r. reflexivity.
Qed.

Lemma nan_row_fails_witness :
  main [(b64_of_Z 0, b64_of_Z 1); (S754_nan, b64_of_Z 0)]
  = ([PrintError S754_nan], Raised (AssertionError assertion_message)).
Proof. apply nan_row_fails. vm_compute. reflexivity. Defined.

Section ZeroTable.
Implicit Types a b x : spec_float.

Lemma zero_or_nan_cases x :
  zero_or_nan x = true -> (exists s, x = S754_zero s) \/ x = S754_nan.
Proof.
  destruct x as [s|s| |s m e]; cbn; intros H; try discriminate H;
    [left; exists s; reflexivity | right; reflexivity].
Qed.

Lemma mul_zero_l (s : bool) x : zero_or_nan (mul (S754_zero s) x) = true.
Proof. destruct x as [s'|s'| |s' m e]; reflexivity. Qed.

Lemma sq_zero_or_nan x : zero_or_nan x = true -> zero_or_nan (sq x) = true.
Proof.
  intros H. destruct (zero_or_nan_cases x H) as [[s ->]| ->]; reflexivity.
Qed.

Lemma add_zero_or_nan a b :
  zero_or_nan a = true -> zero_or_nan b = true -> zero_or_nan (add a b) = true.
Proof.
  intros Ha Hb.
  destruct (zero_or_nan_cases a Ha) as [[s ->]| ->];
    destruct (zero_or_nan_cases b Hb) as [[s' ->]| ->];
    try reflexivity. destruct s, s'; reflexivity.
Qed.

Lemma sub_zero_or_nan a b :
  zero_or_nan a = true -> zero_or_nan b = true -> zero_or_nan (sub a b) = true.
Proof.
  intros Ha Hb.
  destruct (zero_or_nan_cases a Ha) as [[s ->]| ->];
    destruct (zero_or_nan_cases b Hb) as [[s' ->]| ->];
    try reflexivity. destruct s, s'; reflexivity.
Qed.

Lemma sqrt_zero_or_nan a : zero_or_nan a = true -> zero_or_nan (fsqrt a) = true.
Proof.
  intros Ha. destruct (zero_or_nan_cases a Ha) as [[s ->]| ->]; reflexivity.
Qed.

Lemma div_zero_or_nan a b :
  zero_or_nan a = true -> zero_or_nan b = true -> div a b = S754_nan.
Proof.
  intros Ha Hb.
  destruct (zero_or_nan_cases a Ha) as [[s ->]| ->];
    destruct (zero_or_nan_cases b Hb) as [[s' ->]| ->]; reflexivity.
Qed.

Lemma fold_add_zero_or_nan (l : list spec_float) :
  forallb zero_or_nan l = true ->
  forall acc, zero_or_nan acc = true -> zero_or_nan (fold_left add l acc) = true.
Proof.
  induction l as [|b l IH]; intros Hl acc Hacc; [exact Hacc|].
  cbn [forallb] in Hl. apply andb_prop in Hl. destruct Hl as [Hb Hl].
  cbn [fold_left]. apply IH; [exact Hl|]. apply add_zero_or_nan; assumption.
Qed.

Lemma norm_l2_zero_or_nan (l : list spec_float) :
  forallb zero_or_nan l = true -> zero_or_nan (norm_l2 l) = true.
Proof.
  intros Hl. unfold norm_l2. apply sqrt_zero_or_nan.
  apply fold_add_zero_or_nan; [|reflexivity].
  apply forallb_forall. intros v Hv. apply in_map_iff in Hv.
  destruct Hv as [w [<- Hw]]. apply sq_zero_or_nan.
  rewrite forallb_forall in Hl. apply Hl, Hw.
Qed.

Lemma fold_max_zero (l : list spec_float) :
  forallb is_zero l = true ->
  forall a, is_zero a = true -> is_zero (fold_left fmax l a) = true.
Proof.
  induction l as [|b l IH]; intros Hl a Ha; [exact Ha|].
  cbn [forallb] in Hl. apply andb_prop in Hl. destruct Hl as [Hb Hl].
  cbn [fold_left]. apply IH; [exact Hl|].
  destruct a, b; try discriminate; reflexivity.
Qed.

Lemma array_sub_zero_or_nan (a b : list spec_float) :
  forallb zero_or_nan a = true -> forallb zero_or_nan b = true ->
  forallb zero_or_nan (array_sub a b) = true.
Proof.
  unfold array_sub. revert b.
  induction a as [|a0 a IH]; intros [|b0 b] Ha Hb; try reflexivity.
  cbn [forallb] in Ha, Hb. apply andb_prop in Ha, Hb.
  destruct Ha as [Ha0 Ha], Hb as [Hb0 Hb].
  cbn [combine map forallb fst snd].
  rewrite sub_zero_or_nan by assumption. apply IH; assumption.
Qed.
End ZeroTable.

(** X14.  A table whose velocities are all zero fails the check, whatever
    the abscissae: both norms are zero or NaN, the error is NaN, and the
    assertion raises. *)
Theorem zero_velocity_fails :
  forall (d0 : spec_float * spec_float) (rest : samples (F:=spec_float)),
    forallb (fun row => is_zero (snd row)) (d0 :: rest) = true ->
    main (d0 :: rest)
    = ([PrintError S754_nan], Raised (AssertionError assertion_message)).
Proof.
  intros d0 rest H.
  assert (Hu : forallb is_zero (map snd (d0 :: rest)) = true).
  { apply forallb_forall. intros v Hv. apply in_map_iff in Hv.
    destruct Hv as [row [<- Hrow]].
    rewrite forallb_forall in H. apply (H row Hrow). }
  cbn [map forallb] in Hu. apply andb_prop in Hu. destruct Hu as [Hu0 Hus].
  unfold main. cbn [map].
  set (U := fold_left fmax (map snd rest) (snd d0)).
  assert (HU : is_zero U = true) by (apply fold_max_zero; assumption).
  assert (Hua : forallb zero_or_nan (u_analytic U (fst d0 :: map fst rest)) = true).
  { apply forallb_forall. intros v Hv. unfold u_analytic in Hv.
    apply in_map_iff in Hv. destruct Hv as [w [<- _]].
    destruct U; try discriminate HU. apply mul_zero_l. }
  assert (Hzn : forallb zero_or_nan (snd d0 :: map snd rest) = true).
  { cbn [forallb]. apply andb_true_intro. split.
    - unfold zero_or_nan. rewrite Hu0. reflexivity.
    - apply forallb_forall. intros v Hv. unfold zero_or_nan.
      rewrite forallb_forall in Hus. rewrite (Hus v Hv). reflexivity. }
  unfold relative_error.
  rewrite div_zero_or_nan; [reflexivity| |].
  - apply norm_l2_zero_or_nan, array_sub_zero_or_nan; assumption.
  - apply norm_l2_zero_or_nan, Hua.
Qed.

Lemma zero_velocity_fails_witness :
  main [(b64_of_Z 0, b64_of_Z 0); (b64_of_Z 5, S754_zero true)]
  = ([PrintError S754_nan], Raised (AssertionError assertion_message)).
Proof. apply zero_velocity_fails. vm_compute. reflexivity. Defined.

(** * The case directory *)

Section Entries.
Implicit Types (es : entries) (name : string) (n : node).

Lemma lookup_remove name es : lookup name (remove name es) = None.
Proof.
  induction es as [|[k v] es IH]; [reflexivity|].
  unfold remove in *. cbn [filter fst].
  destruct (String.eqb k name) eqn:E; cbn [negb lookup]; [exact IH|].
  rewrite E. exact IH.
Qed.

Lemma remove_absent name es : lookup name es = None -> remove name es = es.
Proof.
  induction es as [|[k v] es IH]; [reflexivity|]. cbn [lookup].
  unfold remove in *. cbn [filter fst].
  destruct (String.eqb k name); [discriminate|]. cbn [negb].
  intros H. rewrite (IH H). reflexivity.
Qed.

Lemma put_absent name n es :
  lookup name es = None -> put name n es = es ++ [(name, n)].
Proof.
  induction es as [|[k v] es IH]; [reflexivity|]. cbn [lookup put].
  destruct (String.eqb k name); [discriminate|].
  intros H. rewrite (IH H). reflexivity.
Qed.

Lemma lookup_last name n es :
  lookup name es = None -> lookup name (es ++ [(name, n)]) = Some n.
Proof.
  induction es as [|[k v] es IH]; cbn [lookup app].
  - rewrite String.eqb_refl. reflexivity.
  - destruct (String.eqb k name); [discriminate|]. exact IH.
Qed.

Lemma put_last name n n' es :
  lookup name es = None -> put name n' (es ++ [(name, n)]) = es ++ [(name, n')].
Proof.
  induction es as [|[k v] es IH]; cbn [lookup put app].
  - rewrite String.eqb_refl. reflexivity.
  - destruct (String.eqb k name); [discriminate|].
    intros H. rewrite (IH H). reflexivity.
Qed.

Lemma remove_last name n es :
  remove name (es ++ [(name, n)]) = remove name es.
Proof.
  unfold remove. rewrite filter_app. cbn [filter fst].
  rewrite String.eqb_refl. cbn [negb]. apply app_nil_r.
Qed.

Lemma remove_remove name es : remove name (remove name es) = remove name es.
Proof. apply remove_absent, lookup_remove. Qed.

(** Work inside the case when it is the last entry. *)
Lemma in_case (dir : list string) (f : entries -> script_error + entries)
    (rest sub : entries) :
  lookup case_dir rest = None ->
  in_dir (case_dir :: dir) f (rest ++ [(case_dir, Dir sub)])
  = match in_dir dir f sub with
    | inl e => inl e
    | inr sub' => inr (rest ++ [(case_dir, Dir sub')])
    end.
Proof.
  intros H. cbn [in_dir]. rewrite (lookup_last _ _ _ H).
  destruct (in_dir dir f sub); [reflexivity|].
  rewrite (put_last _ _ _ _ H). reflexivity.
Qed.

Lemma mkdir_in_case (name : string) (rest sub : entries) :
  lookup case_dir rest = None -> lookup name sub = None ->
  mkdir [case_dir] name (rest ++ [(case_dir, Dir sub)])
  = inr (rest ++ [(case_dir, Dir (put name (Dir []) sub))]).
Proof.
  intros H Hn. unfold mkdir. rewrite (in_case [] _ rest sub H).
  cbn [in_dir]. rewrite Hn. reflexivity.
Qed.

Lemma prepare_absent (rest : entries) :
  lookup case_dir rest = None ->
  Done rest >>= mkdir_parents [case_dir] "system"
            >>= mkdir [case_dir] "constant"
            >>= mkdir [case_dir] "0"
  = Done (rest ++ [(case_dir, case_skeleton)]).
Proof.
  intros H. cbn [and_then].
  assert (H0 : mkdir [case_dir] "system" rest = inl FileNotFoundError).
  { unfold mkdir. cbn [in_dir]. rewrite H. reflexivity. }
  unfold mkdir_parents. rewrite H0. cbn [ensure_dir]. rewrite H.
  rewrite (put_absent _ _ _ H).
  rewrite (mkdir_in_case _ rest [] H) by reflexivity. cbn [and_then].
  rewrite (mkdir_in_case _ rest _ H) by reflexivity. cbn [and_then].
  rewrite (mkdir_in_case _ rest _ H) by reflexivity. reflexivity.
Qed.

Lemma prepare_on_file (es : entries) :
  is_file (lookup case_dir es) = true ->
  prepare_case es = Failed NotADirectoryError es.
Proof.
  intros Hf. unfold prepare_case. cbn [and_then].
  destruct (lookup case_dir es) as [[text|sub]|] eqn:E; try discriminate Hf.
  unfold rmtree. rewrite E. reflexivity.
Qed.

Lemma prepare_off_file (es : entries) :
  is_file (lookup case_dir es) = false ->
  prepare_case es = Done (remove case_dir es ++ [(case_dir, case_skeleton)]).
Proof.
  intros Hf. unfold prepare_case. cbn [and_then].
  destruct (lookup case_dir es) as [[text|sub]|] eqn:E; try discriminate Hf.
  - unfold rmtree. rewrite E. apply prepare_absent, lookup_remove.
  - rewrite (remove_absent _ _ E). apply prepare_absent, E.
Qed.

Lemma and_then_failed (e : script_error) (es : entries)
    (l : list (entries -> script_error + entries)) :
  fold_left (fun r k => r >>= k) l (Failed e es) = Failed e es.
Proof. induction l as [|k l IH]; [reflexivity|]. exact IH. Qed.
End Entries.

(** X15.  [prepare_case] starts over.  If the case is a regular file it
    raises [NotADirectoryError] and touches nothing.  Otherwise, whether the case was missing
    or a directory with anything in it, what was there is gone and the case
    holds exactly the three empty directories system, constant and 0; the
    other entries of the script's directory stay as they were. *)
Theorem prepare_case_resets :
  forall es : entries,
    if is_file (lookup case_dir es)
    then prepare_case es = Failed NotADirectoryError es
    else prepare_case es = Done (remove case_dir es ++ [(case_dir, case_skeleton)]).
Proof.
  intros es. unfold prepare_case. cbn [and_then].
  destruct (lookup case_dir es) as [[text|sub]|] eqn:E; cbn [is_file].
  - unfold rmtree. rewrite E. reflexivity.
  - unfold rmtree. rewrite E. apply prepare_absent, lookup_remove.
  - rewrite (remove_absent _ _ E). apply prepare_absent, E.
Qed.

Section Writing.
Variable dedent : string -> string.

Lemma write_in_case (d name text : string) (rest sub : entries) :
  lookup case_dir rest = None ->
  write_text [case_dir; d] name text (rest ++ [(case_dir, Dir sub)])
  = match write_text [d] name text sub with
    | inl e => inl e
    | inr sub' => inr (rest ++ [(case_dir, Dir sub')])
    end.
Proof. intros H. unfold write_text. apply in_case, H. Qed.

Lemma write_all_in_case (l : list (string * string * string)) (rest : entries) :
  lookup case_dir rest = None ->
  forall sub,
    fold_left
      (fun r d => r >>= write_text [case_dir; fst (fst d)] (snd (fst d)) (snd d))
      l (Done (rest ++ [(case_dir, Dir sub)]))
    = match fold_left
              (fun r d => r >>= write_text [fst (fst d)] (snd (fst d)) (snd d))
              l (Done sub) with
      | Failed e sub' => Failed e (rest ++ [(case_dir, Dir sub')])
      | Done sub' => Done (rest ++ [(case_dir, Dir sub')])
      end.
Proof.
  intros H. induction l as [|d l IH]; intros sub; [reflexivity|].
  cbn [fold_left and_then]. rewrite (write_in_case _ _ _ rest sub H).
  destruct (write_text [fst (fst d)] (snd (fst d)) (snd d) sub) as [e|sub'].
  - clear IH. induction l as [|d' l IH]; [reflexivity|]. exact IH.
  - apply IH.
Qed.

Lemma write_into_skeleton (rest : entries) :
  lookup case_dir rest = None ->
  write_dictionaries dedent (rest ++ [(case_dir, case_skeleton)])
  = Done (rest ++ [(case_dir, fresh_case dedent)]).
Proof.
  intros H. unfold write_dictionaries, case_skeleton.
  rewrite (write_all_in_case _ rest H). reflexivity.
Qed.
End Writing.

(** X16.  Every run starts from the same case.  When the case is not a
    regular file, [prepare_case] followed by [write_dictionaries] raises
    nothing and leaves, whatever the case held before, exactly the nine
    dictionaries in their three directories (system: blockMeshDict,
    fvSchemes, fvSolution, controlDict, sampleDict; constant:
    transportProperties, momentumTransport; 0: U, p), the entries beside the
    case untouched; doing both again changes nothing. *)
Theorem case_is_rebuilt :
  forall (dedent : string -> string) (es : entries),
    is_file (lookup case_dir es) = false ->
    let fresh := remove case_dir es ++ [(case_dir, fresh_case dedent)] in
    rebuild_case dedent es = Done fresh
    /\ rebuild_case dedent fresh = Done fresh
    /\ map fst (files_of dedent "system")
       = ["blockMeshDict"; "fvSchemes"; "fvSolution"; "controlDict"; "sampleDict"]%string
    /\ map fst (files_of dedent "constant")
       = ["transportProperties"; "momentumTransport"]%string
    /\ map fst (files_of dedent "0") = ["U"; "p"]%string.
Proof.
  intros dedent es Hf fresh.
  assert (Hrun : forall es', is_file (lookup case_dir es') = false ->
            rebuild_case dedent es'
            = Done (remove case_dir es' ++ [(case_dir, fresh_case dedent)])).
  { intros es' Hf'. unfold rebuild_case. rewrite (prepare_off_file es' Hf').
    apply write_into_skeleton, lookup_remove. }
  split; [apply Hrun, Hf|]. split; [|repeat split; reflexivity].
  rewrite Hrun.
  - subst fresh. rewrite remove_last, remove_remove. reflexivity.
  - subst fresh. rewrite lookup_last by apply lookup_remove. reflexivity.
Qed.

Lemma case_is_rebuilt_witness :
  rebuild_case (fun s => s)
    [("case", Dir [("stale", File "old")]); ("notes", File "keep")]%string
  = Done [("notes", File "keep"); ("case", fresh_case (fun s => s))]%string.
Proof.
  exact (proj1 (case_is_rebuilt (fun s => s)
                  [("case", Dir [("stale", File "old")]); ("notes", File "keep")]%string
                  eq_refl)).
Defined.

(** X17.  [write_dictionaries] needs the directories of [prepare_case]:
    when the case or its system directory is missing it raises
    [FileNotFoundError] at the first file and has written nothing. *)
Theorem write_needs_directories :
  forall (dedent : string -> string) (es : entries),
    (lookup case_dir es = None
     \/ exists sub, lookup case_dir es = Some (Dir sub) /\ lookup "system" sub = None) ->
    write_dictionaries dedent es = Failed FileNotFoundError es.
Proof.
  intros dedent es H. unfold write_dictionaries, dictionaries.
  cbn [fold_left and_then fst snd].
  assert (H1 : forall name text,
             write_text [case_dir; "system"]%string name text es
             = inl FileNotFoundError).
  { intros name text. unfold write_text. cbn [in_dir].
    destruct H as [->|(sub & -> & ->)]; reflexivity. }
  rewrite H1. reflexivity.
Qed.

Lemma write_needs_directories_witness :
  write_dictionaries (fun s => s) [("case", Dir [])]%string
  = Failed FileNotFoundError [("case", Dir [])]%string.
Proof.
  apply write_needs_directories. right. exists []. split; reflexivity.
Defined.

(** * The pipeline *)

Section PipelineFacts.
Context {F : Type} {AF : Arith F}.
Variable dedent : string -> string.
Variable case_path : string.
Variable tool : list string -> entries -> option (Z * entries).
Variable read_table : string -> option (samples (F:=F)).

Lemma main_returns (data : samples (F:=F)) (u : unit) :
  snd (main data) = Returned u ->
  exists err, main data = ([PrintError err; PrintPassed], Returned tt).
Proof.
  unfold main. destruct (map snd data) as [|u0 us]; [discriminate|].
  unfold check_error. destruct (ltb _ _); [|discriminate].
  intros _. eexists. reflexivity.
Qed.
End PipelineFacts.

(** X18.  [main] returns normally exactly when every stage succeeded in
    turn: the case was rebuilt, blockMesh, simpleFoam and postProcess each
    exited with code 0 on the tree its predecessor left, the sampled file
    was there and could be read, and the check passed.  It has then printed
    the three command lines, the error and the pass line, in this order. *)
Theorem main_script_succeeds_iff :
  forall (F : Type) (AF : Arith F) (dedent : string -> string)
         (case_path : string)
         (tool : list string -> entries -> option (Z * entries))
         (read_table : string -> option (samples (F:=F)))
         (es : entries) (st' : state (F:=F)),
    main_script dedent case_path tool read_table {| tree := es; printed := [] |}
    = (inr tt, st')
    <-> exists t0 t1 t2 t3 text data err,
          rebuild_case dedent es = Done t0
          /\ tool (blockMesh_cmd case_path) t0 = Some (0%Z, t1)
          /\ tool (simpleFoam_cmd case_path) t1 = Some (0%Z, t2)
          /\ tool (postProcess_cmd case_path) t2 = Some (0%Z, t3)
          /\ read_text [case_dir; "postProcessing"; "sets"; "200"]%string
                       "centerLine_U.xy" t3 = inr text
          /\ read_table text = Some data
          /\ main data = ([PrintError err; PrintPassed], Returned tt)
          /\ st' = {| tree := t3;
                      printed := map Echo (command_lines case_path)
                                 ++ [Report (PrintError err); Report PrintPassed] |}.
Proof.
  intros F AF dedent case_path tool read_table es st'.
  unfold main_script, run, bind, on_tree, print, load_table, check.
  cbn [tree printed]. split.
  - unfold rebuild_case.
    destruct (prepare_case es) as [e0|e e0]; cbn [tree printed];
      [|intros Hx; discriminate Hx].
    destruct (write_dictionaries dedent e0) as [t0|e t0'] eqn:Hw;
      cbn [tree printed]; [|intros Hx; discriminate Hx].
    destruct (tool (blockMesh_cmd case_path) t0) as [[c1 t1]|] eqn:H1;
      cbn [tree printed]; [|intros Hx; discriminate Hx].
    destruct (Z.eqb c1 0) eqn:E1; cbn [tree printed]; [|intros Hx; discriminate Hx].
    apply Z.eqb_eq in E1. subst c1.
    destruct (tool (simpleFoam_cmd case_path) t1) as [[c2 t2]|] eqn:H2;
      cbn [tree printed]; [|intros Hx; discriminate Hx].
    destruct (Z.eqb c2 0) eqn:E2; cbn [tree printed]; [|intros Hx; discriminate Hx].
    apply Z.eqb_eq in E2. subst c2.
    destruct (tool (postProcess_cmd case_path) t2) as [[c3 t3]|] eqn:H3;
      cbn [tree printed]; [|intros Hx; discriminate Hx].
    destruct (Z.eqb c3 0) eqn:E3; cbn [tree printed]; [|intros Hx; discriminate Hx].
    apply Z.eqb_eq in E3. subst c3.
    destruct (read_text _ _ t3) as [e|text] eqn:Hr; cbn [tree printed]; [intros Hx; discriminate Hx|].
    destruct (read_table text) as [data|] eqn:Ht; cbn [tree printed]; [|intros Hx; discriminate Hx].
    destruct (snd (main data)) as [u|e] eqn:Hm; [|intros Hx; discriminate Hx].
    destruct (main_returns data u Hm) as [err Herr].
    intros Heq. injection Heq as <-.
    exists t0, t1, t2, t3, text, data, err.
    split; [reflexivity|]. rewrite Herr. repeat split; try assumption.
  - intros (t0 & t1 & t2 & t3 & text & data & err
            & H0 & H1 & H2 & H3 & Hr & Ht & Hm & ->).
    unfold rebuild_case in H0.
    destruct (prepare_case es) as [e0|e e0]; [|discriminate].
    cbn [tree printed]. rewrite H0. cbn [tree printed].
    rewrite H1. cbn [Z.eqb tree printed].
    rewrite H2. cbn [Z.eqb tree printed].
    rewrite H3. cbn [Z.eqb tree printed].
    rewrite Hr, Ht. cbn [tree printed]. rewrite Hm. reflexivity.
Qed.

Section ReadErrors.
Lemma read_text_error (dir : list string) (name : string) :
  forall (es : entries) (e : script_error),
    read_text dir name es = inl e ->
    e = FileNotFoundError \/ e = NotADirectoryError \/ e = IsADirectoryError.
Proof.
  induction dir as [|d dir IH]; intros es e; cbn [read_text].
  - destruct (lookup name es) as [[text|sub]|]; intros H;
      try discriminate H; injection H as <-; auto.
  - destruct (lookup d es) as [[text|sub]|]; intros H.
    + injection H as <-; auto.
    + apply (IH sub e H).
    + injection H as <-; auto.
Qed.
End ReadErrors.

(** X19.  [main] stops at the first failure.  What it prints is a prefix
    of the three command lines, in order, followed by the lines of the
    check; the check prints only after all three commands were echoed; a
    normal return means all three ran; and a [CalledProcessError] carries a
    nonzero exit code and the last command echoed, after which no further
    command was started and nothing was reported. *)
Theorem main_script_stops_at_first_failure :
  forall (F : Type) (AF : Arith F) (dedent : string -> string)
         (case_path : string)
         (tool : list string -> entries -> option (Z * entries))
         (read_table : string -> option (samples (F:=F)))
         (es : entries),
    let out := main_script dedent case_path tool read_table
                           {| tree := es; printed := [] |} in
    exists (k : nat) (reports : list (event (F:=F))),
      printed (snd out)
      = map Echo (firstn k (command_lines case_path)) ++ map Report reports
      /\ (k <= 3)%nat
      /\ (reports <> [] -> k = 3%nat)
      /\ (fst out = inr tt -> k = 3%nat)
      /\ (forall code cmd,
            fst out = inl (CalledProcessError code cmd) ->
            code <> 0%Z /\ reports = [] /\ (1 <= k)%nat
            /\ nth_error [blockMesh_cmd case_path; simpleFoam_cmd case_path;
                          postProcess_cmd case_path] (k - 1) = Some cmd).
Proof.
  intros F AF dedent case_path tool read_table es out. subst out.
  unfold main_script, run, bind, on_tree, print, load_table, check.
  cbn [tree printed].
  destruct (is_file (lookup case_dir es)) eqn:Hf.
  { rewrite (prepare_on_file es Hf). cbn [fst snd printed].
    exists 0%nat, []. trace_parts. intros code cmd H. discriminate H. }
  rewrite (prepare_off_file es Hf). cbn [tree printed].
  rewrite (write_into_skeleton dedent _ (lookup_remove case_dir es)).
  cbn [tree printed].
  set (t0 := remove case_dir es ++ [(case_dir, fresh_case dedent)]).
  destruct (tool (blockMesh_cmd case_path) t0) as [[c1 t1]|];
    cbn [tree printed fst snd].
  2:{ exists 1%nat, []. trace_parts. intros code cmd H. discriminate H. }
  destruct (Z.eqb c1 0) eqn:E1; cbn [tree printed fst snd].
  2:{ exists 1%nat, []. apply Z.eqb_neq in E1. trace_parts.
      intros code cmd H. injection H as <- <-.
      split; [assumption|]. split; [reflexivity|]. split; [lia|reflexivity]. }
  destruct (tool (simpleFoam_cmd case_path) t1) as [[c2 t2]|];
    cbn [tree printed fst snd].
  2:{ exists 2%nat, []. trace_parts. intros code cmd H. discriminate H. }
  destruct (Z.eqb c2 0) eqn:E2; cbn [tree printed fst snd].
  2:{ exists 2%nat, []. apply Z.eqb_neq in E2. trace_parts.
      intros code cmd H. injection H as <- <-.
      split; [assumption|]. split; [reflexivity|]. split; [lia|reflexivity]. }
  destruct (tool (postProcess_cmd case_path) t2) as [[c3 t3]|];
    cbn [tree printed fst snd].
  2:{ exists 3%nat, []. trace_parts. intros code cmd H. discriminate H. }
  destruct (Z.eqb c3 0) eqn:E3; cbn [tree printed fst snd].
  2:{ exists 3%nat, []. apply Z.eqb_neq in E3. trace_parts.
      intros code cmd H. injection H as <- <-.
      split; [assumption|]. split; [reflexivity|]. split; [lia|reflexivity]. }
  destruct (read_text _ _ t3) as [e|text] eqn:Hr; cbn [tree printed fst snd].
  { exists 3%nat, []. trace_parts. intros code cmd H. injection H as ->.
    destruct (read_text_error _ _ _ _ Hr) as [Hx|[Hx|Hx]]; discriminate Hx. }
  destruct (read_table text) as [data|]; cbn [tree printed fst snd].
  2:{ exists 3%nat, []. trace_parts. intros code cmd H. discriminate H. }
  exists 3%nat, (fst (main data)).
  destruct (snd (main data)) as [u|e]; cbn [tree printed fst snd];
    trace_parts; intros code cmd H; discriminate H.
Qed.
